(** * webex_assistant_sdk.helpers: request validation and signed requests

    A shallow embedding of [webex_assistant_sdk/helpers.py]
    ([validate_request], [make_request], [make_health_check]) together with
    the parts of the Python runtime the three functions lean on: truthiness,
    [dict.get], [str.encode], [bytes.hex], [base64.b64decode] and the
    [try]/[except] discipline over the exception class tree.

    The collaborators that live outside the file ([crypto], [json],
    [requests]) are interfaces; every theorem is stated for an arbitrary
    implementation of them. *)

From Stdlib Require Import List String Ascii Bool NArith ZArith Lia.
From Stdlib Require Import DecimalString.
From Stdlib Require Import Init.Byte.
From Stdlib Require Import Floats.SpecFloat.
Import ListNotations.

Set Warnings "-register-all".

Open Scope string_scope.
Open Scope N_scope.
Open Scope list_scope.

(* ================================================================== *)
(** * Python data *)

(** A Python [str] is a sequence of code points; [bytes] a sequence of
    octets. *)
Definition pystr := list N.
Definition bytes := list byte.

(** The code points of a literal of the source text. *)
Definition u (s : string) : pystr := map N_of_ascii (list_ascii_of_string s).

Fixpoint str_eqb (a b : pystr) : bool :=
  match a, b with
  | [], [] => true
  | x :: a', y :: b' => (x =? y) && str_eqb a' b'
  | _, _ => false
  end.

Fixpoint bytes_eqb (a b : bytes) : bool :=
  match a, b with
  | [], [] => true
  | x :: a', y :: b' => Byte.eqb x y && bytes_eqb a' b'
  | _, _ => false
  end.

(** The values [json.loads] produces, which are also the values a caller
    hands to [make_request]; [PyNone] is JSON [null].  A [dict] keeps its
    insertion order. *)
Inductive pyval : Type :=
| PyNone
| PyBool (b : bool)
| PyInt (z : Z)
| PyFloat (f : spec_float)
| PyStr (s : pystr)
| PyList (xs : list pyval)
| PyDict (items : list (pystr * pyval)).

Definition dict := list (pystr * pyval).

(** [bool(v)]: what [not v], [v or d] and [if v] test. *)
Definition truthy (v : pyval) : bool :=
  match v with
  | PyNone => false
  | PyBool b => b
  | PyInt z => negb (z =? 0)%Z
  | PyFloat (S754_zero _) => false
  | PyFloat _ => true
  | PyStr s => match s with [] => false | _ => true end
  | PyList xs => match xs with [] => false | _ => true end
  | PyDict kv => match kv with [] => false | _ => true end
  end.

(** [v is not None]. *)
Definition is_not_None (v : pyval) : bool :=
  match v with PyNone => false | _ => true end.

(** [type(v).__name__], as error messages quote it. *)
Definition type_name (v : pyval) : string :=
  match v with
  | PyNone => "NoneType"
  | PyBool _ => "bool"
  | PyInt _ => "int"
  | PyFloat _ => "float"
  | PyStr _ => "str"
  | PyList _ => "list"
  | PyDict _ => "dict"
  end.

(** The request body: [Union[str, bytes]]. *)
Inductive strbytes : Type :=
| OfStr (s : pystr)
| OfBytes (b : bytes).

Definition strbytes_truthy (b : strbytes) : bool :=
  match b with
  | OfStr [] | OfBytes [] => false
  | _ => true
  end.

Definition strbytes_eqb (a b : strbytes) : bool :=
  match a, b with
  | OfStr s, OfStr t => str_eqb s t
  | OfBytes s, OfBytes t => bytes_eqb s t
  | _, _ => false
  end.

(* ================================================================== *)
(** * Exceptions *)

(** A class below [Exception] is the path of its single-inheritance
    ancestry.  Only instances of [Exception] are modelled: interrupts
    ([KeyboardInterrupt], [SystemExit]) are not errors of a call. *)
Inductive pyclass : Type :=
| Exception
| Derived (name : string) (base : pyclass).

Fixpoint pyclass_eqb (c d : pyclass) : bool :=
  match c, d with
  | Exception, Exception => true
  | Derived n b, Derived m b' => String.eqb n m && pyclass_eqb b b'
  | _, _ => false
  end.

Fixpoint issubclass (c d : pyclass) : bool :=
  pyclass_eqb c d ||
  match c with
  | Exception => false
  | Derived _ b => issubclass b d
  end.

(** Builtins and library classes the three functions can meet. *)
Definition ValueError := Derived "ValueError" Exception.
Definition TypeError := Derived "TypeError" Exception.
Definition AttributeError := Derived "AttributeError" Exception.
Definition UnicodeEncodeError :=
  Derived "UnicodeEncodeError" (Derived "UnicodeError" ValueError).
Definition JSONDecodeError := Derived "json.JSONDecodeError" ValueError.
Definition binascii_Error := Derived "binascii.Error" ValueError.
Definition InvalidSignature :=
  Derived "cryptography.exceptions.InvalidSignature" Exception.

(** Modelled from the spec: [webex_assistant_sdk/exceptions.py] is not part
    of the sources at hand.  The spec makes RequestValidationFailure the
    umbrella of SignatureFailure and ServerChallengeFailure ("recognized
    kinds pass through unchanged"), which is also what the docstring of
    [validate_request] relies on when it lists the two among the errors the
    function raises.  The two outbound classes are kept apart from that
    umbrella ("outbound failures are not wrapped"). *)
Definition RequestValidationError := Derived "RequestValidationError" Exception.
Definition SignatureValidationError :=
  Derived "SignatureValidationError" RequestValidationError.
Definition ServerChallengeValidationError :=
  Derived "ServerChallengeValidationError" RequestValidationError.
Definition ResponseValidationError := Derived "ResponseValidationError" Exception.
Definition ClientChallengeValidationError :=
  Derived "ClientChallengeValidationError" Exception.

(** An exception instance: class, message and [__cause__] (set by
    [raise ... from exc]). *)
Inductive exn : Type :=
| Exn (cls : pyclass) (msg : string) (cause : option exn).

Definition exn_class (e : exn) : pyclass := let (c, _, _) := e in c.

(** Which [except C] clauses catch [e]. *)
Definition isinstance (e : exn) (c : pyclass) : bool :=
  issubclass (exn_class e) c.

Inductive outcome (A : Type) : Type :=
| Ok (a : A)
| Raise (e : exn).
Arguments Ok {A} a.
Arguments Raise {A} e.

(* ================================================================== *)
(** * Runtime helpers *)

(** [d.get(key, default)] on a dict. *)
Fixpoint dict_get (d : dict) (key : pystr) : option pyval :=
  match d with
  | [] => None
  | (k, v) :: d' => if str_eqb k key then Some v else dict_get d' key
  end.

(** [v.get(key, default)] on whatever [json.loads] returned: only a dict
    has the method. *)
Definition py_get (v : pyval) (key : pystr) (default : pyval) : outcome pyval :=
  match v with
  | PyDict d => Ok (match dict_get d key with Some x => x | None => default end)
  | _ => Raise (Exn AttributeError
                  (String.append "'"
                     (String.append (type_name v)
                        "' object has no attribute 'get'")) None)
  end.

Definition byte_of_N (n : N) : byte :=
  match Byte.of_N (n mod 256) with Some b => b | None => x00 end.

(** UTF-8 of one code point; surrogates cannot be encoded. *)
Definition utf8_of_codepoint (c : N) : option bytes :=
  if c <? 128 then Some [byte_of_N c]
  else if c <? 2048 then
    Some [byte_of_N (192 + c / 64); byte_of_N (128 + c mod 64)]
  else if (55296 <=? c) && (c <=? 57343) then None
  else if c <? 65536 then
    Some [byte_of_N (224 + c / 4096); byte_of_N (128 + (c / 64) mod 64);
          byte_of_N (128 + c mod 64)]
  else if c <? 1114112 then
    Some [byte_of_N (240 + c / 262144); byte_of_N (128 + (c / 4096) mod 64);
          byte_of_N (128 + (c / 64) mod 64); byte_of_N (128 + c mod 64)]
  else None.

Fixpoint utf8 (s : pystr) : option bytes :=
  match s with
  | [] => Some []
  | c :: s' =>
      match utf8_of_codepoint c, utf8 s' with
      | Some b, Some bs => Some (b ++ bs)
      | _, _ => None
      end
  end.

(** [v.encode("utf-8")]: a method of [str] only. *)
Definition str_encode (v : pyval) : outcome bytes :=
  match v with
  | PyStr s =>
      match utf8 s with
      | Some b => Ok b
      | None => Raise (Exn UnicodeEncodeError "surrogates not allowed" None)
      end
  | _ => Raise (Exn AttributeError
                  (String.append "'"
                     (String.append (type_name v)
                        "' object has no attribute 'encode'")) None)
  end.

(** [bytes.hex()]: two lower-case digits per octet. *)
Definition hexdigit_of (d : N) : N := if d <? 10 then 48 + d else 87 + d.

Definition hex_of_byte (b : byte) : pystr :=
  let n := Byte.to_N b in [hexdigit_of (n / 16); hexdigit_of (n mod 16)].

Fixpoint bytes_hex (bs : bytes) : pystr :=
  match bs with
  | [] => []
  | b :: bs' => hex_of_byte b ++ bytes_hex bs'
  end.

Definition hexdigits : pystr := u "0123456789abcdef".

Definition is_hexdigit (c : N) : bool := existsb (N.eqb c) hexdigits.

(** [int(c, 16)] of one character. *)
Definition hex_value (c : N) : option N :=
  if (48 <=? c) && (c <=? 57) then Some (c - 48)
  else if (97 <=? c) && (c <=? 102) then Some (c - 87)
  else if (65 <=? c) && (c <=? 70) then Some (c - 55)
  else None.

(** [bytes.fromhex(s)] on a string without blanks: what a hex string
    encodes, if anything. *)
Fixpoint bytes_fromhex (s : pystr) : option bytes :=
  match s with
  | [] => Some []
  | hi :: lo :: s' =>
      match hex_value hi, hex_value lo, bytes_fromhex s' with
      | Some h, Some l, Some bs => Some (byte_of_N (16 * h + l) :: bs)
      | _, _, _ => None
      end
  | _ => None
  end.

(** ** base64.b64decode *)

(** [binascii]'s decoding table: the value of an alphabet character, [None]
    for every other octet. *)
Definition table_a2b_base64 (c : N) : option N :=
  if (65 <=? c) && (c <=? 90) then Some (c - 65)
  else if (97 <=? c) && (c <=? 122) then Some (c - 71)
  else if (48 <=? c) && (c <=? 57) then Some (c + 4)
  else if c =? 43 then Some 62
  else if c =? 47 then Some 63
  else None.

Definition BASE64_PAD : N := 61.

(** How the scanning loop of [binascii.a2b_base64] ends: on a complete pad
    sequence ([Done]) or at the end of the input, in the middle of a quad
    or not ([Ended quad_pos]). *)
Inductive a2b_end : Type :=
| Done (out : bytes)
| Ended (quad_pos : nat) (out : bytes).

(** The loop of [binascii.a2b_base64] in its default, lenient mode:
    characters outside the alphabet are skipped, pads count only once two
    characters of a quad have been read. *)
Fixpoint a2b_loop (data : list N) (quad_pos : nat) (leftchar : N) (pads : nat)
  (out : bytes) : a2b_end :=
  match data with
  | [] => Ended quad_pos out
  | this_ch :: rest =>
      if this_ch =? BASE64_PAD then
        if (2 <=? quad_pos)%nat then
          if (4 <=? quad_pos + S pads)%nat then Done out
          else a2b_loop rest quad_pos leftchar (S pads) out
        else a2b_loop rest quad_pos leftchar pads out
      else
        match table_a2b_base64 this_ch with
        | None => a2b_loop rest quad_pos leftchar pads out
        | Some v =>
            match quad_pos with
            | 0%nat => a2b_loop rest 1 v 0 out
            | 1%nat =>
                a2b_loop rest 2 (N.land v 15) 0
                  (out ++ [byte_of_N (N.lor (N.shiftl leftchar 2) (N.shiftr v 4))])
            | 2%nat =>
                a2b_loop rest 3 (N.land v 3) 0
                  (out ++ [byte_of_N (N.lor (N.shiftl leftchar 4) (N.shiftr v 2))])
            | _ =>
                a2b_loop rest 0 0 0
                  (out ++ [byte_of_N (N.lor (N.shiftl leftchar 6) v)])
            end
        end
  end.

Definition a2b_base64 (data : list N) : outcome bytes :=
  match a2b_loop data 0 0 0 [] with
  | Done out => Ok out
  | Ended 0%nat out => Ok out
  | Ended 1%nat out =>
      Raise (Exn binascii_Error
        (String.append
           "Invalid base64-encoded string: number of data characters ("
           (String.append
              (NilZero.string_of_uint
                 (Nat.to_uint (List.length out / 3 * 4 + 1)))
              ") cannot be 1 more than a multiple of 4"))
        None)
  | Ended _ _ => Raise (Exn binascii_Error "Incorrect padding" None)
  end.

(** [base64.b64decode(s)]: a [str] must be ASCII and is then decoded; a
    value that is neither [str] nor bytes-like is refused. *)
Definition b64decode (s : pyval) : outcome bytes :=
  match s with
  | PyStr cs =>
      if forallb (fun c => c <? 128) cs then a2b_base64 cs
      else Raise (Exn ValueError
                    "string argument should contain only ASCII characters" None)
  | _ => Raise (Exn TypeError
                  (String.append
                     "argument should be a bytes-like object or ASCII string, not '"
                     (String.append (type_name s) "'")) None)
  end.

(* ================================================================== *)
(** * Collaborators *)

(** [from . import crypto]: the keyed signature and the asymmetric cipher.
    Each call either returns or raises. *)
Module crypto.
Class t (RSAPrivateKey : Type) : Type := {
  verify_signature : pystr -> bytes -> bytes -> outcome unit;
  decrypt : RSAPrivateKey -> pyval -> outcome bytes;
  generate_signature : pystr -> pystr -> outcome pystr
}.
End crypto.

(** [import json]. *)
Module json.
Class t : Type := {
  loads : strbytes -> outcome pyval;
  dumps : pyval -> outcome pystr
}.
End json.

(** [import requests]: a response carries its status and the lazily parsed
    body ([res.json()]). *)
Record Response : Type := {
  status_code : Z;
  res_json : outcome pyval
}.

Definition headers := list (pystr * pystr).

Module requests.
Class t : Type := {
  post : pystr -> headers -> pystr -> outcome Response;
  get : pystr -> headers -> list (pystr * pystr) -> outcome Response
}.
End requests.

(* ================================================================== *)
(** * Effects: calls observed, entropy consumed, exceptions raised *)

Inductive event (K : Type) : Type :=
| VerifySignature (secret : pystr) (payload signature : bytes)
| Decrypt (private_key : K) (message : pyval)
| GenerateSignature (secret payload : pystr)
| LogException (msg : string)
| Post (url : pystr) (hs : headers) (data : pystr)
| Get (url : pystr) (hs : headers) (params : list (pystr * pystr)).
Arguments VerifySignature {K}.
Arguments Decrypt {K}.
Arguments GenerateSignature {K}.
Arguments LogException {K}.
Arguments Post {K}.
Arguments Get {K}.

(** The world a call runs in: the calls made so far, oldest first, and the
    system's entropy, read from [cursor] on. *)
Record world (K : Type) : Type := {
  trace : list (event K);
  entropy : nat -> byte;
  cursor : nat
}.
Arguments trace {K}.
Arguments entropy {K}.
Arguments cursor {K}.

Definition M (K A : Type) : Type := world K -> outcome A * world K.

Definition ret {K A} (a : A) : M K A := fun w => (Ok a, w).

Definition raise {K A} (e : exn) : M K A := fun w => (Raise e, w).

Definition bind {K A B} (m : M K A) (k : A -> M K B) : M K B :=
  fun w =>
    match m w with
    | (Ok a, w') => k a w'
    | (Raise e, w') => (Raise e, w')
    end.

(** A pure computation that may raise. *)
Definition lift {K A} (o : outcome A) : M K A := fun w => (o, w).

(** [try: m  except ... as exc: h exc]; a handler that matches no clause
    re-raises. *)
Definition try_except {K A} (m : M K A) (h : exn -> M K A) : M K A :=
  fun w =>
    match m w with
    | (Ok a, w') => (Ok a, w')
    | (Raise e, w') => h e w'
    end.

Definition emit {K} (ev : event K) : M K unit :=
  fun w => (Ok tt, {| trace := trace w ++ [ev];
                      entropy := entropy w; cursor := cursor w |}).

(** [if c: raise e]. *)
Definition raise_if {K} (c : bool) (e : exn) : M K unit :=
  if c then raise e else ret tt.

Declare Scope py_scope.
Delimit Scope py_scope with py.
Notation "x <- m ;; k" := (bind m (fun x => k))
  (at level 61, m at next level, right associativity) : py_scope.
Notation "m ;; k" := (bind m (fun _ => k))
  (at level 61, right associativity) : py_scope.
Open Scope py_scope.

(** [os.urandom(n)]: the next [n] octets of entropy. *)
Definition os_urandom {K} (n : nat) : M K bytes :=
  fun w => (Ok (map (entropy w) (seq (cursor w) n)),
            {| trace := trace w; entropy := entropy w;
               cursor := (cursor w + n)%nat |}).

(** The value of [os.urandom(64).hex()] evaluated in [w]. *)
Definition drawn_challenge {K} (w : world K) : pystr :=
  bytes_hex (map (entropy w) (seq (cursor w) 64)).

(** [v != s] for a [str] [s]: a [str] equals only a [str] with the same
    code points. *)
Definition ne_str (v : pyval) (s : pystr) : bool :=
  match v with
  | PyStr t => negb (str_eqb t s)
  | _ => true
  end.

(* ================================================================== *)
(** * helpers.py *)

Section Helpers.
Context {RSAPrivateKey : Type}.
Context {Crypto : crypto.t RSAPrivateKey} {Json : json.t} {Requests : requests.t}.

Local Notation "'M'" := (M RSAPrivateKey).

(** The observable calls into the collaborators. *)
Definition call_verify_signature (secret : pystr) (payload signature : bytes)
  : M unit :=
  emit (VerifySignature secret payload signature) ;;
  lift (crypto.verify_signature secret payload signature).

Definition call_decrypt (private_key : RSAPrivateKey) (message : pyval)
  : M bytes :=
  emit (Decrypt private_key message) ;;
  lift (crypto.decrypt private_key message).

Definition call_generate_signature (secret payload : pystr) : M pystr :=
  emit (GenerateSignature secret payload) ;;
  lift (crypto.generate_signature secret payload).

Definition call_post (url : pystr) (hs : headers) (data : pystr) : M Response :=
  emit (Post url hs data) ;;
  lift (requests.post url hs data).

Definition call_get (url : pystr) (hs : headers) (params : list (pystr * pystr))
  : M Response :=
  emit (Get url hs params) ;;
  lift (requests.get url hs params).

Definition logger_exception (msg : string) : M unit :=
  emit (LogException msg).

(** The [try] block of [validate_request] (lines 41-75), yielding the two
    names the function returns. *)
Definition validate_request_try (secret : pystr) (private_key : RSAPrivateKey)
  (body : strbytes) : M (pyval * pyval) :=
  raise_if (negb (strbytes_truthy body))
    (Exn SignatureValidationError "Missing body" None) ;;
  json_body <- lift (json.loads body) ;;
  encoded_signature <- lift (py_get json_body (u "signature") (PyStr [])) ;;
  encoded_cipher <- lift (py_get json_body (u "message") (PyStr [])) ;;
  raise_if (negb (truthy encoded_signature))
    (Exn SignatureValidationError "Missing signature" None) ;;
  raise_if (negb (truthy encoded_cipher))
    (Exn SignatureValidationError "Missing message" None) ;;
  encoded_cipher_bytes <- lift (str_encode encoded_cipher) ;;
  decoded_sig_bytes <- lift (b64decode encoded_signature) ;;
  try_except
    (call_verify_signature secret encoded_cipher_bytes decoded_sig_bytes)
    (fun exc =>
       if isinstance exc InvalidSignature
       then raise (Exn SignatureValidationError "Invalid signature" (Some exc))
       else raise exc) ;;
  decrypted_body <- call_decrypt private_key encoded_cipher ;;
  request_json <-
    try_except
      (lift (json.loads (OfBytes decrypted_body)))
      (fun exc =>
         if isinstance exc JSONDecodeError
         then raise (Exn RequestValidationError "Invalid request data" (Some exc))
         else raise exc) ;;
  challenge <- lift (py_get request_json (u "challenge") PyNone) ;;
  raise_if (negb (truthy challenge))
    (Exn ServerChallengeValidationError "Missing challenge" None) ;;
  ret (request_json, challenge).

(** The two [except] clauses that close the block (lines 77-81). *)
Definition validate_request_except (exc : exn) : M (pyval * pyval) :=
  if isinstance exc RequestValidationError then raise exc
  else
    logger_exception "Unexpected error validating request" ;;
    raise (Exn RequestValidationError "Cannot validate request" (Some exc)).

Definition validate_request (secret : pystr) (private_key : RSAPrivateKey)
  (body : strbytes) : M (pyval * pyval) :=
  try_except (validate_request_try secret private_key body)
    validate_request_except.

Definition default_url : pystr := u "http://0.0.0.0:7150/parse".

Definition default_context : pyval :=
  PyDict
    [ (u "orgId", PyStr (u "fake-org-id"));
      (u "userId", PyStr (u "fake-user-id"));
      (u "userType", PyStr (u "fake"));
      (u "supportedDirectives",
       PyList [PyStr (u "reply"); PyStr (u "speak");
               PyStr (u "display-web-view"); PyStr (u "sleep");
               PyStr (u "listen")]) ].

(** Lines 97-115 of [make_request]: the defaulted context and the dict
    comprehension that builds [request]. *)
Definition request_dict (challenge : pystr)
  (text context params frame history : pyval) : dict :=
  let context := if truthy context then context else default_context in
  filter (fun kv => is_not_None (snd kv))
    [ (u "challenge", PyStr challenge);
      (u "text", text);
      (u "context", context);
      (u "params", params);
      (u "frame", frame);
      (u "history", history) ].

Definition make_request (secret : pystr) (text : pyval) (url : pystr)
  (context params frame history : pyval) : M pyval :=
  random <- os_urandom 64 ;;
  let challenge := bytes_hex random in
  let request := PyDict (request_dict challenge text context params frame history) in
  encoded_request <- lift (json.dumps request) ;;
  signature <- call_generate_signature secret encoded_request ;;
  let hs :=
    [ (u "X-Webex-Assistant-Signature", signature);
      (u "Content-Type", u "application/octet-stream");
      (u "Accept", u "application/json") ] in
  res <- call_post url hs encoded_request ;;
  raise_if (negb (status_code res =? 200)%Z)
    (Exn ResponseValidationError "Request failed" None) ;;
  response_body <- lift (res_json res) ;;
  echoed <- lift (py_get response_body (u "challenge") PyNone) ;;
  raise_if (ne_str echoed challenge)
    (Exn ClientChallengeValidationError "Response failed challenge" None) ;;
  ret response_body.

Definition make_health_check (secret : pystr) (url : pystr) : M pyval :=
  random <- os_urandom 64 ;;
  let challenge := bytes_hex random in
  signature <- call_generate_signature secret challenge ;;
  let hs :=
    [ (u "X-Webex-Assistant-Signature", signature);
      (u "Accept", u "application/json") ] in
  res <- call_get url hs [(u "payload", challenge)] ;;
  raise_if (negb (status_code res =? 200)%Z)
    (Exn ResponseValidationError "Health check failed" None) ;;
  response_body <- lift (res_json res) ;;
  echoed <- lift (py_get response_body (u "challenge") PyNone) ;;
  raise_if (ne_str echoed challenge)
    (Exn ClientChallengeValidationError "Response failed challenge" None) ;;
  ret response_body.

(** ** The stages of inbound validation, as predicates on its inputs *)

(** ["key" in d and d["key"]] is truthy: the field is there and not empty. *)
Definition has_nonempty (d : dict) (key : pystr) : bool :=
  match dict_get d key with
  | Some v => truthy v
  | None => false
  end.

(** The body is a JSON object whose [signature] is [s] and whose [message]
    is [m], neither of them empty. *)
Definition envelope_parses (body : strbytes) (s m : pyval) : Prop :=
  strbytes_truthy body = true /\
  exists d, json.loads body = Ok (PyDict d) /\
    dict_get d (u "signature") = Some s /\ truthy s = true /\
    dict_get d (u "message") = Some m /\ truthy m = true.

(** The decoded signature [s] verifies over the UTF-8 octets of the
    message [m] as received. *)
Definition signature_verifies (secret : pystr) (s m : pyval) : Prop :=
  exists payload sig,
    str_encode m = Ok payload /\ b64decode s = Ok sig /\
    crypto.verify_signature secret payload sig = Ok tt.

(** ** A round trip that got a success response carrying the object [d] *)

Definition post_answers (secret : pystr) (text : pyval) (url : pystr)
  (context params frame history : pyval) (w : world RSAPrivateKey) (d : dict)
  : Prop :=
  exists encoded_request signature res,
    json.dumps (PyDict (request_dict (drawn_challenge w) text context params
                          frame history)) = Ok encoded_request /\
    crypto.generate_signature secret encoded_request = Ok signature /\
    requests.post url
      [ (u "X-Webex-Assistant-Signature", signature);
        (u "Content-Type", u "application/octet-stream");
        (u "Accept", u "application/json") ] encoded_request = Ok res /\
    status_code res = 200%Z /\ res_json res = Ok (PyDict d).

Definition get_answers (secret url : pystr) (w : world RSAPrivateKey) (d : dict)
  : Prop :=
  exists signature res,
    crypto.generate_signature secret (drawn_challenge w) = Ok signature /\
    requests.get url
      [ (u "X-Webex-Assistant-Signature", signature);
        (u "Accept", u "application/json") ]
      [(u "payload", drawn_challenge w)] = Ok res /\
    status_code res = 200%Z /\ res_json res = Ok (PyDict d).

End Helpers.

(* ================================================================== *)
(** * Test doubles

    Small stand-ins for the collaborators, used to run the three functions
    on concrete envelopes. *)

Module Fixture.

(** JSON text written with ['] standing for the double quote. *)
Definition jsontext (s : string) : pystr :=
  map (fun c => if c =? 39 then 34 else c) (u s).

Definition ascii_bytes (s : pystr) : bytes := map byte_of_N s.

(** A toy keyed signature: the secret followed by the payload. *)
Definition toy_sign (secret : pystr) (payload : bytes) : bytes :=
  ascii_bytes secret ++ payload.

Definition toy_verify (secret : pystr) (payload signature : bytes)
  : outcome unit :=
  if bytes_eqb signature (toy_sign secret payload) then Ok tt
  else Raise (Exn InvalidSignature "Signature did not match digest." None).

(** A toy cipher: the ciphertext is the base64 of the plaintext. *)
Definition toy_decrypt (_ : unit) (message : pyval) : outcome bytes :=
  match b64decode message with
  | Ok b => Ok b
  | Raise e => Raise (Exn ValueError "Decryption failed" (Some e))
  end.

Definition toy_crypto : crypto.t unit :=
  {| crypto.verify_signature := toy_verify;
     crypto.decrypt := toy_decrypt;
     crypto.generate_signature :=
       fun secret payload => Ok (bytes_hex (toy_sign secret (ascii_bytes payload))) |}.

(** A parser that knows the texts of a table and rejects every other
    input the way [json.loads] rejects malformed text. *)
Fixpoint table_loads (table : list (strbytes * pyval)) (x : strbytes)
  : outcome pyval :=
  match table with
  | [] => Raise (Exn JSONDecodeError "Expecting value" None)
  | (k, v) :: table' => if strbytes_eqb k x then Ok v else table_loads table' x
  end.

Definition envelope_text (signature message : string) : strbytes :=
  OfStr (jsontext "{'signature': '" ++ u signature
         ++ jsontext "', 'message': '" ++ u message ++ jsontext "'}").

Definition envelope_items (signature message : string) : dict :=
  [(u "signature", PyStr (u signature)); (u "message", PyStr (u message))].

Definition envelope_value (signature message : string) : pyval :=
  PyDict (envelope_items signature message).

Definition secret0 : pystr := u "s3cr3t".

(** Plaintexts, with their toy ciphertexts and signatures under
    [secret0]. *)
Definition lights_text : pystr :=
  jsontext "{'challenge':'abc123','text':'turn on the lights'}".
Definition lights_value : pyval :=
  PyDict [(u "challenge", PyStr (u "abc123"));
          (u "text", PyStr (u "turn on the lights"))].
Definition lights_message : string :=
  "eyJjaGFsbGVuZ2UiOiJhYmMxMjMiLCJ0ZXh0IjoidHVybiBvbiB0aGUgbGlnaHRzIn0=".
Definition lights_signature : string :=
  "czNjcjN0ZXlKamFHRnNiR1Z1WjJVaU9pSmhZbU14TWpNaUxDSjBaWGgwSWpvaWRIVnliaUJ2YmlCMGFHVWdiR2xuYUhSekluMD0=".

Definition hi_text : pystr := jsontext "{'text':'hi'}".
Definition hi_value : pyval := PyDict [(u "text", PyStr (u "hi"))].
Definition hi_message : string := "eyJ0ZXh0IjoiaGkifQ==".
Definition hi_signature : string := "czNjcjN0ZXlKMFpYaDBJam9pYUdraWZRPT0=".

(** The plaintext [not json]. *)
Definition garbage_message : string := "bm90IGpzb24=".
Definition garbage_signature : string := "czNjcjN0Ym05MElHcHpiMjQ9".

(** A ciphertext the toy cipher cannot decrypt. *)
Definition corrupt_message : string := "a".
Definition corrupt_signature : string := "czNjcjN0YQ==".

(** A signature that is not base64. *)
Definition malformed_signature : string := "a".

Definition empty_object : strbytes := OfStr (u "{}").
Definition empty_array : strbytes := OfStr (u "[]").

Definition table : list (strbytes * pyval) :=
  [ (empty_object, PyDict []);
    (empty_array, PyList []);
    (envelope_text lights_signature lights_message,
     envelope_value lights_signature lights_message);
    (envelope_text hi_signature hi_message,
     envelope_value hi_signature hi_message);
    (envelope_text garbage_signature garbage_message,
     envelope_value garbage_signature garbage_message);
    (envelope_text corrupt_signature corrupt_message,
     envelope_value corrupt_signature corrupt_message);
    (envelope_text malformed_signature "m",
     envelope_value malformed_signature "m");
    (envelope_text hi_signature lights_message,
     envelope_value hi_signature lights_message);
    (OfBytes (ascii_bytes lights_text), lights_value);
    (OfBytes (ascii_bytes hi_text), hi_value) ].

Definition join (sep : pystr) : list pystr -> pystr :=
  fix go (xs : list pystr) : pystr :=
    match xs with
    | [] => []
    | [x] => x
    | x :: rest => x ++ sep ++ go rest
    end.

Definition quoted (s : pystr) : pystr := 34 :: s ++ [34].

(** An encoder good for the objects of the fixtures: strings free of
    escapes, lists, dicts, [null], booleans and integers; a float prints as
    a placeholder. *)
Fixpoint toy_dumps (v : pyval) : pystr :=
  match v with
  | PyNone => u "null"
  | PyBool true => u "true"
  | PyBool false => u "false"
  | PyInt z => u (DecimalString.NilZero.string_of_int (Z.to_int z))
  | PyFloat _ => u "<float>"
  | PyStr s => quoted s
  | PyList xs => u "[" ++ join (u ", ") (map toy_dumps xs) ++ u "]"
  | PyDict items =>
      u "{"
      ++ join (u ", ")
           (map (fun kv : pystr * pyval =>
                   match kv with
                   | (k, x) => quoted k ++ u ": " ++ toy_dumps x
                   end)
              items)
      ++ u "}"
  end.

Definition toy_json : json.t :=
  {| json.loads := table_loads table;
     json.dumps := fun v => Ok (toy_dumps v) |}.

(** A platform that answers every POST with [reply] and echoes the
    [payload] of a GET. *)
Definition echo_get (url : pystr) (hs : headers) (params : list (pystr * pystr))
  : outcome Response :=
  Ok {| status_code := 200;
        res_json :=
          Ok (PyDict [(u "challenge",
                       match params with
                       | (_, c) :: _ => PyStr c
                       | [] => PyNone
                       end);
                      (u "status", PyStr (u "up"))]) |}.

Definition toy_requests (reply : Response) : requests.t :=
  {| requests.post := fun _ _ _ => Ok reply;
     requests.get := echo_get |}.

Definition world0 : world unit :=
  {| trace := [];
     entropy := fun i => byte_of_N (N.of_nat i * 37 + 11);
     cursor := 0 |}.

(** The challenge the first call in [world0] draws. *)
Definition challenge0 : pystr := bytes_hex (map (entropy world0) (seq 0 64)).

Definition echo_reply : Response :=
  {| status_code := 200;
     res_json := Ok (PyDict [(u "challenge", PyStr challenge0);
                             (u "directives", PyList [])]) |}.

Definition stale_reply : Response :=
  {| status_code := 200;
     res_json := Ok (PyDict [(u "challenge", PyStr (u "abc123"))]) |}.

Definition run_validate (body : strbytes) : outcome (pyval * pyval) * world unit :=
  @validate_request unit toy_crypto toy_json secret0 tt body world0.

Definition run_request (reply : Response) (text context : pyval)
  : outcome pyval * world unit :=
  @make_request unit toy_crypto toy_json (toy_requests reply) secret0
    text default_url context PyNone PyNone PyNone world0.

Definition run_health_check : outcome pyval * world unit :=
  @make_health_check unit toy_crypto (toy_requests echo_reply) secret0
    default_url world0.

(** Discharging [envelope_parses] and [signature_verifies] on a fixture. *)
Ltac fixture_parses sg msg :=
  split; [reflexivity |
          exists (envelope_items sg msg); repeat split; vm_compute; reflexivity].

Ltac fixture_verifies msg :=
  exists (ascii_bytes (u msg)), (toy_sign secret0 (ascii_bytes (u msg)));
  repeat split; vm_compute; reflexivity.

End Fixture.

(* ================================================================== *)
(** * More stages and test doubles *)

Section Replies.
Context {RSAPrivateKey : Type}.
Context {Crypto : crypto.t RSAPrivateKey} {Json : json.t} {Requests : requests.t}.

(** The request of a call was encoded, signed and sent, and the transport
    returned the response [res], whatever its status. *)
Definition post_replies (secret : pystr) (text : pyval) (url : pystr)
  (context params frame history : pyval) (w : world RSAPrivateKey)
  (res : Response) : Prop :=
  exists encoded_request signature,
    json.dumps (PyDict (request_dict (drawn_challenge w) text context params
                          frame history)) = Ok encoded_request /\
    crypto.generate_signature secret encoded_request = Ok signature /\
    requests.post url
      [ (u "X-Webex-Assistant-Signature", signature);
        (u "Content-Type", u "application/octet-stream");
        (u "Accept", u "application/json") ] encoded_request = Ok res.

Definition get_replies (secret url : pystr) (w : world RSAPrivateKey)
  (res : Response) : Prop :=
  exists signature,
    crypto.generate_signature secret (drawn_challenge w) = Ok signature /\
    requests.get url
      [ (u "X-Webex-Assistant-Signature", signature);
        (u "Accept", u "application/json") ]
      [(u "payload", drawn_challenge w)] = Ok res.

End Replies.

(** What an outbound call raises once the transport has returned [res]:
    the status check, the response's own JSON decoder, [.get] on a body
    that is not an object, or the challenge check. *)
Definition raised_on_response (failed : string) (challenge : pystr)
  (res : Response) (e : exn) : Prop :=
  (status_code res <> 200%Z /\ e = Exn ResponseValidationError failed None) \/
  (status_code res = 200%Z /\
   (res_json res = Raise e \/
    exists v, res_json res = Ok v /\
      (py_get v (u "challenge") PyNone = Raise e \/
       exists d, v = PyDict d /\
         dict_get d (u "challenge") <> Some (PyStr challenge) /\
         e = Exn ClientChallengeValidationError "Response failed challenge"
               None))).

(** The events that reach outside the process or draw on the signing key:
    none of them belongs to inbound validation. *)
Definition is_outbound_event {K} (ev : event K) : bool :=
  match ev with
  | GenerateSignature _ _ | Post _ _ _ | Get _ _ _ => true
  | _ => false
  end.

(** The six keys [make_request] may put on the wire, in the order of the
    dict display. *)
Definition request_keys : list pystr :=
  [u "challenge"; u "text"; u "context"; u "params"; u "frame"; u "history"].

Module Fixture2.
Import Fixture.

(** An envelope whose message is a number. *)
Definition numeric_text : strbytes :=
  OfStr (jsontext "{'signature': 'czNjcjN0bQ==', 'message': 42}").
Definition numeric_items : dict :=
  [(u "signature", PyStr (u "czNjcjN0bQ==")); (u "message", PyInt 42)].

(** A [challenge] that is a number, inside a well-signed envelope. *)
Definition counter_text : pystr := jsontext "{'challenge': 7}".
Definition counter_items : dict := [(u "challenge", PyInt 7)].
Definition counter_message : string := "eyJjaGFsbGVuZ2UiOiA3fQ==".
Definition counter_signature : string :=
  "czNjcjN0ZXlKamFHRnNiR1Z1WjJVaU9pQTNmUT09".

Definition table2 : list (strbytes * pyval) :=
  [ (numeric_text, PyDict numeric_items);
    (envelope_text counter_signature counter_message,
     envelope_value counter_signature counter_message);
    (OfBytes (ascii_bytes counter_text), PyDict counter_items) ].

Definition toy_json2 : json.t :=
  {| json.loads := table_loads table2;
     json.dumps := fun v => Ok (toy_dumps v) |}.

Definition run_validate2 (body : strbytes)
  : outcome (pyval * pyval) * world unit :=
  @validate_request unit toy_crypto toy_json2 secret0 tt body world0.

(** A platform that is down but still echoes the challenge, and one that
    answers 200 with a JSON array. *)
Definition down_reply : Response :=
  {| status_code := 500;
     res_json := Ok (PyDict [(u "challenge", PyStr challenge0)]) |}.

Definition array_reply : Response :=
  {| status_code := 200; res_json := Ok (PyList []) |}.

Definition fixed_requests (reply : Response) : requests.t :=
  {| requests.post := fun _ _ _ => Ok reply;
     requests.get := fun _ _ _ => Ok reply |}.

Definition run_health_check2 (reply : Response) : outcome pyval * world unit :=
  @make_health_check unit toy_crypto (fixed_requests reply) secret0
    default_url world0.

Definition run_request2 (reply : Response) : outcome pyval * world unit :=
  @make_request unit toy_crypto toy_json (fixed_requests reply) secret0
    (PyStr (u "hi")) default_url PyNone PyNone PyNone PyNone world0.

(** The world the first call leaves behind. *)
Definition world1 : world unit := snd run_health_check.

End Fixture2.

(* ================================================================== *)
(** * Running the monad symbolically *)

Ltac unfold_py :=
  cbv [validate_request validate_request_try validate_request_except
       make_request make_health_check
       call_verify_signature call_decrypt call_generate_signature
       call_post call_get logger_exception os_urandom
       bind ret raise lift try_except emit raise_if].

Ltac case_on t :=
  destruct t eqn:?; cbv beta iota zeta; cbn [negb fst snd trace].

(** One step of the run: split on the next test or call that decides where
    control goes. *)
Ltac run_step :=
  match goal with
  | |- context [strbytes_truthy ?b] => case_on (strbytes_truthy b)
  | |- context [@json.loads ?J ?b] => case_on (@json.loads J b)
  | |- context [py_get ?v ?k ?d] => case_on (py_get v k d)
  | |- context [truthy ?v] => case_on (truthy v)
  | |- context [str_encode ?v] => case_on (str_encode v)
  | |- context [b64decode ?v] => case_on (b64decode v)
  | |- context [@crypto.verify_signature ?K ?C ?s ?p ?g] =>
      case_on (@crypto.verify_signature K C s p g)
  | |- context [@crypto.decrypt ?K ?C ?k ?m] => case_on (@crypto.decrypt K C k m)
  | |- context [isinstance ?e ?c] => case_on (isinstance e c)
  end.

(* ================================================================== *)
(** * Facts about the runtime helpers *)

Lemma str_eqb_eq (a b : pystr) : str_eqb a b = true <-> a = b.
Proof.
  revert b; induction a as [|x a IH]; destruct b as [|y b]; simpl;
    try (split; [discriminate | congruence]); try tauto.
  rewrite andb_true_iff, N.eqb_eq, IH.
  split; [intros [-> ->]; reflexivity | intros [= -> ->]; auto].
Qed.

Lemma pyclass_eqb_refl (c : pyclass) : pyclass_eqb c c = true.
Proof.
  induction c as [|n b IH]; simpl; [reflexivity|].
  rewrite String.eqb_refl, IH; reflexivity.
Qed.

Lemma issubclass_refl (c : pyclass) : issubclass c c = true.
Proof. destruct c; simpl; rewrite ?String.eqb_refl, ?pyclass_eqb_refl; reflexivity. Qed.

(** [py_get] on a dict never raises. *)
Lemma py_get_dict (d : dict) (key : pystr) (default : pyval) :
  py_get (PyDict d) key default
  = Ok (match dict_get d key with Some x => x | None => default end).
Proof. reflexivity. Qed.

(** Only a dict answers [.get]. *)
Lemma py_get_Ok_inv (v : pyval) (key : pystr) (default x : pyval) :
  py_get v key default = Ok x ->
  exists d, v = PyDict d /\
    x = match dict_get d key with Some y => y | None => default end.
Proof.
  destruct v; simpl; try discriminate.
  intros [= <-]; eauto.
Qed.

(** A truthy value fetched with a falsy default was really in the dict. *)
Lemma truthy_get_present (d : dict) (key : pystr) (default : pyval) :
  truthy default = false ->
  truthy (match dict_get d key with Some y => y | None => default end) = true ->
  exists v, dict_get d key = Some v /\ truthy v = true /\
    match dict_get d key with Some y => y | None => default end = v.
Proof.
  intros Hd; destruct (dict_get d key) as [v|]; [eauto | congruence].
Qed.

Lemma has_nonempty_false_get (d : dict) (key : pystr) (default : pyval) :
  truthy default = false ->
  has_nonempty d key = false ->
  truthy (match dict_get d key with Some y => y | None => default end) = false.
Proof.
  unfold has_nonempty; intros Hd; destruct (dict_get d key); auto.
Qed.

(* ================================================================== *)
(** * Inbound validation *)

Section Inbound.
Context {RSAPrivateKey : Type}.
Context {Crypto : crypto.t RSAPrivateKey} {Json : json.t}.

Local Notation "'Unexpected'" :=
  (@LogException RSAPrivateKey "Unexpected error validating request").

Lemma envelope_parses_intro body json_body s m :
  strbytes_truthy body = true ->
  json.loads body = Ok json_body ->
  py_get json_body (u "signature") (PyStr []) = Ok s ->
  py_get json_body (u "message") (PyStr []) = Ok m ->
  truthy s = true -> truthy m = true ->
  envelope_parses body s m.
Proof.
  intros Hb Hl Hs Hm Ts Tm.
  apply py_get_Ok_inv in Hs as (d & -> & ->).
  apply py_get_Ok_inv in Hm as (d' & [= <-] & ->).
  apply truthy_get_present in Ts as (vs & Es & Ts & ->); [|reflexivity].
  apply truthy_get_present in Tm as (vm & Em & Tm & ->); [|reflexivity].
  split; [assumption|]. exists d. auto.
Qed.

(** The first half of the [try] block, replayed on an envelope that
    parses: everything up to the call of [crypto.verify_signature]. *)
Lemma envelope_parses_elim body s m :
  envelope_parses body s m ->
  strbytes_truthy body = true /\
  exists json_body,
    json.loads body = Ok json_body /\
    py_get json_body (u "signature") (PyStr []) = Ok s /\
    py_get json_body (u "message") (PyStr []) = Ok m /\
    truthy s = true /\ truthy m = true.
Proof.
  intros (Hb & d & Hl & Es & Ts & Em & Tm).
  split; [assumption|]. exists (PyDict d).
  rewrite !py_get_dict, Es, Em. auto.
Qed.

(** What a run of [validate_request] adds to the trace, with what each
    shape of the addition says about the envelope. *)
Lemma validate_request_trace secret (private_key : RSAPrivateKey) body w :
  exists evs,
    trace (snd (validate_request secret private_key body w)) = trace w ++ evs /\
    (evs = [] \/ evs = [Unexpected] \/
     exists s m payload sig,
       envelope_parses body s m /\
       str_encode m = Ok payload /\ b64decode s = Ok sig /\
       ((crypto.verify_signature secret payload sig <> Ok tt /\
         (evs = [VerifySignature secret payload sig] \/
          evs = [VerifySignature secret payload sig; Unexpected])) \/
        (crypto.verify_signature secret payload sig = Ok tt /\
         (evs = [VerifySignature secret payload sig; Decrypt private_key m] \/
          evs = [VerifySignature secret payload sig; Decrypt private_key m;
                 Unexpected])))).
Proof.
  unfold_py.
  repeat run_step.
  all: try (exists []; rewrite app_nil_r; auto; fail).
  all: try (exists [Unexpected]; auto; fail).
  all: repeat rewrite <- app_assoc; simpl.
  all: eexists; split; [reflexivity|].
  all: right; right.
  all: match goal with
       | Hs : py_get _ (u "signature") _ = Ok ?s,
         Hm : py_get _ (u "message") _ = Ok ?m,
         Hp : str_encode ?m = Ok ?p, Hg : b64decode ?s = Ok ?g |- _ =>
           exists s, m, p, g;
           split; [eapply envelope_parses_intro; eassumption|];
           split; [assumption|]; split; [assumption|]
       end.
  all: match goal with
       | H : crypto.verify_signature _ _ _ = Ok ?t |- _ =>
           destruct t; right; split; [assumption | auto]
       | H : crypto.verify_signature _ _ _ = Raise _ |- _ =>
           left; split; [congruence | auto]
       end.
Qed.

(** Reading a [Decrypt] event back: it is the second call of the run, right
    after a [crypto.verify_signature] that returned. *)
Lemma decrypt_event_inv
  secret (private_key : RSAPrivateKey) body w pre k m post :
  trace (snd (validate_request secret private_key body w))
    = trace w ++ pre ++ Decrypt k m :: post ->
  k = private_key /\
  exists s payload sig,
    envelope_parses body s m /\
    str_encode m = Ok payload /\ b64decode s = Ok sig /\
    crypto.verify_signature secret payload sig = Ok tt /\
    pre = [VerifySignature secret payload sig].
Proof.
  intros H.
  destruct (validate_request_trace secret private_key body w)
    as (evs & Ht & Hshape).
  rewrite Ht in H. apply app_inv_head in H. subst evs.
  destruct Hshape as [E | [E | (s & m' & payload & sig & Hp & He & Hd & Hv)]].
  - destruct pre; discriminate.
  - destruct pre as [|? [|? ?]]; discriminate.
  - destruct Hv as [(_ & [E | E]) | (Hv & [E | E])];
      destruct pre as [|e1 [|e2 [|e3 pre]]]; simpl in E;
      try discriminate; try (destruct pre; discriminate).
    all: injection E as E1 E2 E3; subst.
    all: split; [reflexivity|]; exists s, payload, sig; auto.
Qed.

(** C1: during inbound validation [crypto.decrypt] is called only with the
    caller's key on the message of an envelope whose decoded signature has
    verified over the message's UTF-8 octets as received, and the call of
    [crypto.verify_signature] that accepted them is the one event before
    it; so an envelope whose signature does not verify is never fed to
    decryption. *)
Theorem decrypt_only_after_verified_signature
  secret (private_key : RSAPrivateKey) body w pre k m post :
  trace (snd (validate_request secret private_key body w))
    = trace w ++ pre ++ Decrypt k m :: post ->
  k = private_key /\
  exists s payload sig,
    envelope_parses body s m /\
    str_encode m = Ok payload /\ b64decode s = Ok sig /\
    crypto.verify_signature secret payload sig = Ok tt /\
    pre = [VerifySignature secret payload sig].
Proof. apply decrypt_event_inv. Qed.

(** An envelope whose signature does not verify leaves no call of
    [crypto.decrypt] in the trace. *)
Corollary unverified_envelope_never_decrypted
  secret (private_key : RSAPrivateKey) body w evs :
  (forall s m, envelope_parses body s m -> ~ signature_verifies secret s m) ->
  trace (snd (validate_request secret private_key body w)) = trace w ++ evs ->
  forall k m, ~ In (Decrypt k m) evs.
Proof.
  intros Hno Ht k m Hin.
  apply in_split in Hin as (pre & post & ->).
  apply decrypt_event_inv in Ht
    as (_ & s & payload & sig & Hp & He & Hd & Hv & _).
  apply (Hno s m Hp). exists payload, sig. auto.
Qed.

(** C6: an exception that leaves the [try] block of [validate_request]
    passes through unchanged when it is a [RequestValidationError] (or one
    of its subclasses); any other is logged and replaced by a plain
    [RequestValidationError] that keeps it as cause.  Whatever
    [validate_request] raises is therefore a [RequestValidationError]. *)
Theorem validate_request_normalizes_errors
  secret (private_key : RSAPrivateKey) body w :
  let (r, w1) := validate_request_try secret private_key body w in
  let (r', w2) := validate_request secret private_key body w in
  match r with
  | Ok a => r' = Ok a /\ w2 = w1
  | Raise e =>
      if isinstance e RequestValidationError
      then r' = Raise e /\ w2 = w1
      else r' = Raise (Exn RequestValidationError "Cannot validate request"
                         (Some e))
           /\ trace w2 = trace w1 ++ [Unexpected]
  end /\
  match r' with
  | Ok _ => True
  | Raise e' => isinstance e' RequestValidationError = true
  end.
Proof.
  unfold validate_request, try_except.
  destruct (validate_request_try secret private_key body w) as [[a|e] w1].
  - auto.
  - unfold validate_request_except.
    destruct (isinstance e RequestValidationError) eqn:He.
    + cbv [raise]. auto.
    + cbv [bind logger_exception emit raise]. cbn [trace]. auto.
Qed.

(** C2 (amended): an empty body, or a body that parses to a JSON object
    without a non-empty [signature] or without a non-empty [message], makes
    [validate_request] raise a [SignatureValidationError]; nothing is
    called and nothing is logged on the way. *)
Theorem missing_envelope_field_is_signature_failure
  secret (private_key : RSAPrivateKey) body w :
  strbytes_truthy body = false \/
  (exists d, json.loads body = Ok (PyDict d) /\
     (has_nonempty d (u "signature") = false \/
      has_nonempty d (u "message") = false)) ->
  exists msg,
    validate_request secret private_key body w
    = (Raise (Exn SignatureValidationError msg None), w).
Proof.
  intros H. unfold_py.
  destruct (strbytes_truthy body) eqn:Hb; cbn [negb].
  2: { eexists; reflexivity. }
  destruct H as [H | (d & Hl & H)]; [discriminate|].
  rewrite Hl. cbv beta iota. rewrite !py_get_dict. cbv beta iota.
  destruct (truthy match dict_get d (u "signature") with
                   | Some x => x | None => PyStr [] end) eqn:Ts; cbn [negb].
  2: { eexists; reflexivity. }
  destruct H as [H | H].
  - apply (has_nonempty_false_get _ _ (PyStr [])) in H; [congruence | reflexivity].
  - apply (has_nonempty_false_get _ _ (PyStr [])) in H; [|reflexivity].
    rewrite H. cbn [negb]. eexists; reflexivity.
Qed.

(** The run of the [try] block on an envelope that parses and whose
    message and signature decode: it continues from the call of
    [crypto.verify_signature]. *)
Lemma validate_request_try_from_verify
  secret (private_key : RSAPrivateKey) body w s m payload sig :
  envelope_parses body s m ->
  str_encode m = Ok payload -> b64decode s = Ok sig ->
  validate_request_try secret private_key body w
  = ((try_except
        (call_verify_signature secret payload sig)
        (fun exc =>
           if isinstance exc InvalidSignature
           then raise (Exn SignatureValidationError "Invalid signature" (Some exc))
           else raise exc) ;;
      decrypted_body <- call_decrypt private_key m ;;
      request_json <-
        try_except
          (lift (json.loads (OfBytes decrypted_body)))
          (fun exc =>
             if isinstance exc JSONDecodeError
             then raise (Exn RequestValidationError "Invalid request data" (Some exc))
             else raise exc) ;;
      challenge <- lift (py_get request_json (u "challenge") PyNone) ;;
      raise_if (negb (truthy challenge))
        (Exn ServerChallengeValidationError "Missing challenge" None) ;;
      ret (request_json, challenge)) w).
Proof.
  intros Hp He Hd.
  apply envelope_parses_elim in Hp as (Hb & jb & Hl & Hs & Hm & Ts & Tm).
  unfold validate_request_try at 1.
  cbv [bind lift raise_if ret].
  rewrite Hb; cbn [negb]. rewrite Hl, Hs, Hm, Ts, Tm; cbn [negb].
  rewrite He, Hd. reflexivity.
Qed.

(** The run of [validate_request] once the signature has verified. *)
Lemma validate_request_verified
  secret (private_key : RSAPrivateKey) body w s m :
  envelope_parses body s m -> signature_verifies secret s m ->
  exists w1,
    validate_request secret private_key body w
    = try_except
        (decrypted_body <- lift (crypto.decrypt private_key m) ;;
         request_json <-
           try_except
             (lift (json.loads (OfBytes decrypted_body)))
             (fun exc =>
                if isinstance exc JSONDecodeError
                then raise (Exn RequestValidationError "Invalid request data"
                              (Some exc))
                else raise exc) ;;
         challenge <- lift (py_get request_json (u "challenge") PyNone) ;;
         raise_if (negb (truthy challenge))
           (Exn ServerChallengeValidationError "Missing challenge" None) ;;
         ret (request_json, challenge))
        validate_request_except w1.
Proof.
  intros Hp (payload & sig & He & Hd & Hv).
  unfold validate_request, try_except at 1.
  rewrite (validate_request_try_from_verify _ _ _ _ _ _ _ _ Hp He Hd).
  cbv [bind call_verify_signature call_decrypt emit lift try_except].
  rewrite Hv. eexists. reflexivity.
Qed.

(** C4: when the envelope has passed signature verification and decryption
    and the decrypted bytes parse to a JSON object without a non-empty
    [challenge], [validate_request] raises
    [ServerChallengeValidationError]. *)
Theorem missing_challenge_is_server_challenge_failure
  secret (private_key : RSAPrivateKey) body w s m decrypted_body d :
  envelope_parses body s m -> signature_verifies secret s m ->
  crypto.decrypt private_key m = Ok decrypted_body ->
  json.loads (OfBytes decrypted_body) = Ok (PyDict d) ->
  has_nonempty d (u "challenge") = false ->
  fst (validate_request secret private_key body w)
  = Raise (Exn ServerChallengeValidationError "Missing challenge" None).
Proof.
  intros Hp Hv Hdec Hl Hc.
  destruct (validate_request_verified secret private_key body w s m Hp Hv)
    as (w1 & ->).
  cbv [try_except bind lift raise_if ret].
  rewrite Hdec, Hl, py_get_dict.
  rewrite (has_nonempty_false_get _ _ PyNone eq_refl Hc).
  reflexivity.
Qed.

(** C10: when [validate_request] returns, the envelope parsed and its
    signature verified, the mapping returned is what [json.loads] made of
    the decrypted bytes, and the challenge returned is the (non-empty)
    value of that mapping's [challenge] key. *)
Theorem validate_request_returns_parsed_payload_and_its_challenge
  secret (private_key : RSAPrivateKey) body w request_json challenge :
  fst (validate_request secret private_key body w)
    = Ok (request_json, challenge) ->
  exists s m decrypted_body d,
    envelope_parses body s m /\ signature_verifies secret s m /\
    crypto.decrypt private_key m = Ok decrypted_body /\
    json.loads (OfBytes decrypted_body) = Ok request_json /\
    request_json = PyDict d /\
    dict_get d (u "challenge") = Some challenge /\
    truthy challenge = true.
Proof.
  match goal with |- _ -> ?G => set (Q := G) end.
  unfold_py.
  repeat run_step; try discriminate.
  intros [= -> ->]. subst Q.
  match goal with
  | Hs : py_get _ (u "signature") _ = Ok ?s,
    Hm : py_get _ (u "message") _ = Ok ?m,
    Hp : str_encode ?m = Ok ?p, Hg : b64decode ?s = Ok ?g,
    Hv : crypto.verify_signature _ ?p ?g = Ok ?t,
    Hd : crypto.decrypt _ ?m = Ok ?pt,
    Hc : py_get _ (u "challenge") _ = Ok _ |- _ =>
      destruct t;
      apply py_get_Ok_inv in Hc as (d & -> & Hc);
      exists s, m, pt, d;
      split; [eapply envelope_parses_intro; eassumption|];
      split; [exists p, g; auto|]
  end.
  repeat (split; [assumption || reflexivity|]).
  subst challenge.
  match goal with
  | T : truthy _ = true |- _ =>
      apply truthy_get_present in T as (v & E & T & ->); [auto | reflexivity]
  end.
Qed.

(** What [b64decode] raises is never a [RequestValidationError]. *)
Lemma b64decode_Raise_inv (s : pyval) (e : exn) :
  b64decode s = Raise e -> isinstance e RequestValidationError = false.
Proof.
  unfold b64decode, a2b_base64.
  destruct s; try (intros [= <-]; reflexivity).
  destruct (forallb _ _); [|intros [= <-]; reflexivity].
  destruct (a2b_loop _ _ _ _ _) as [out | [|[|q]] out];
    try discriminate; intros [= <-]; reflexivity.
Qed.

(** The signature stage, path by path, on an envelope that parses and
    whose message encodes: a signature that cannot be base64-decoded ends
    in the generic [RequestValidationError] with the decoding error as
    cause; a decoded signature that [crypto.verify_signature] rejects with
    [InvalidSignature] ends in [SignatureValidationError]; any other error
    of the verifier passes through if it is a [RequestValidationError] and
    is wrapped in the generic one otherwise. *)
Theorem signature_stage_failures
  secret (private_key : RSAPrivateKey) body w s m payload :
  envelope_parses body s m ->
  str_encode m = Ok payload ->
  match b64decode s with
  | Raise e =>
      fst (validate_request secret private_key body w)
      = Raise (Exn RequestValidationError "Cannot validate request" (Some e))
  | Ok sig =>
      match crypto.verify_signature secret payload sig with
      | Ok _ => True
      | Raise e =>
          fst (validate_request secret private_key body w)
          = if isinstance e InvalidSignature
            then Raise (Exn SignatureValidationError "Invalid signature" (Some e))
            else if isinstance e RequestValidationError then Raise e
            else Raise (Exn RequestValidationError "Cannot validate request"
                          (Some e))
      end
  end.
Proof.
  intros Hp He.
  destruct (b64decode s) as [sig | e] eqn:Hd.
  - destruct (crypto.verify_signature secret payload sig) as [[]|e] eqn:Hv;
      [exact I|].
    unfold validate_request, try_except at 1.
    rewrite (validate_request_try_from_verify _ _ _ _ _ _ _ _ Hp He Hd).
    cbv [bind call_verify_signature emit lift try_except].
    rewrite Hv.
    destruct (isinstance e InvalidSignature) eqn:Hi.
    + reflexivity.
    + cbv [raise validate_request_except].
      destruct (isinstance e RequestValidationError); reflexivity.
  - pose proof (b64decode_Raise_inv _ _ Hd) as Hn.
    apply envelope_parses_elim in Hp as (Hb & jb & Hl & Hs & Hm & Ts & Tm).
    unfold_py.
    rewrite Hb; cbn [negb]. rewrite Hl, Hs, Hm, Ts, Tm; cbn [negb].
    rewrite He, Hd, Hn. reflexivity.
Qed.


End Inbound.

(* ================================================================== *)
(** * Outbound requests *)

Lemma length_bytes_hex (bs : bytes) :
  List.length (bytes_hex bs) = (2 * List.length bs)%nat.
Proof.
  induction bs as [|b bs IH]; simpl; [reflexivity|]. rewrite IH. lia.
Qed.

Lemma hex_of_byte_digits (b : byte) :
  forallb is_hexdigit (hex_of_byte b) = true.
Proof. destruct b; vm_compute; reflexivity. Qed.

Lemma bytes_hex_digits (bs : bytes) :
  forallb is_hexdigit (bytes_hex bs) = true.
Proof.
  induction bs as [|b bs IH]; [reflexivity|].
  cbn [bytes_hex]. rewrite forallb_app, hex_of_byte_digits, IH. reflexivity.
Qed.

(** [v != s] is false exactly when [v] is the [str] [s]. *)
Lemma ne_str_false (v : pyval) (s : pystr) : ne_str v s = false <-> v = PyStr s.
Proof.
  destruct v; simpl; try (split; discriminate).
  rewrite negb_false_iff, str_eqb_eq. split; [intros ->; reflexivity | intros [= ->]; reflexivity].
Qed.

Lemma ne_str_get (d : dict) (s : pystr) :
  ne_str (match dict_get d (u "challenge") with Some x => x | None => PyNone end) s
  = false
  <-> dict_get d (u "challenge") = Some (PyStr s).
Proof.
  rewrite ne_str_false.
  destruct (dict_get d (u "challenge")); split; congruence.
Qed.

Lemma truthy_is_not_None (v : pyval) : truthy v = true -> is_not_None v = true.
Proof. destruct v; simpl; congruence. Qed.

(** The value of [os.urandom(64).hex()]: 128 characters, each a
    hexadecimal digit. *)
Lemma drawn_challenge_length_and_digits (K : Type) (w : world K) :
  exists random w',
    os_urandom 64 w = (Ok random, w') /\
    List.length random = 64%nat /\
    bytes_hex random = drawn_challenge w /\
    List.length (drawn_challenge w) = 128%nat /\
    forallb is_hexdigit (drawn_challenge w) = true.
Proof.
  unfold os_urandom, drawn_challenge.
  eexists; eexists; split; [reflexivity|].
  rewrite length_bytes_hex, length_map, length_seq.
  split; [reflexivity|]. split; [reflexivity|]. split; [reflexivity|].
  apply bytes_hex_digits.
Qed.

Section Outbound.
Context {RSAPrivateKey : Type}.
Context {Crypto : crypto.t RSAPrivateKey} {Json : json.t} {Requests : requests.t}.

(** C7 (amended): the object [make_request] encodes and posts has no
    [None] value; it always has [challenge], the call's fresh challenge,
    and [context], the caller's when that is truthy and the default
    context otherwise; each of [text], [params], [frame], [history] is a
    key exactly when the caller's value is not [None], and then maps to
    that value.  Every POST of the call carries the encoding of this very
    object. *)
Theorem request_dict_shape
  (secret : pystr) (text : pyval) (url : pystr)
  (context params frame history : pyval) (w : world RSAPrivateKey) :
  let request :=
    request_dict (drawn_challenge w) text context params frame history in
  Forall (fun kv => snd kv <> PyNone) request /\
  dict_get request (u "challenge") = Some (PyStr (drawn_challenge w)) /\
  dict_get request (u "context")
    = Some (if truthy context then context else default_context) /\
  (forall k v,
     In (k, v) [(u "text", text); (u "params", params);
                (u "frame", frame); (u "history", history)] ->
     dict_get request k = if is_not_None v then Some v else None) /\
  (forall pre url' hs data post,
     trace (snd (make_request secret text url context params frame history w))
       = trace w ++ pre ++ Post url' hs data :: post ->
     json.dumps (PyDict request) = Ok data).
Proof.
  intros request.
  assert (Hc : is_not_None (if truthy context then context else default_context)
               = true).
  { destruct (truthy context) eqn:T; [apply truthy_is_not_None, T | reflexivity]. }
  split; [|split; [|split; [|split]]].
  - apply Forall_forall. intros [k v] Hin.
    apply filter_In in Hin as (_ & Hv). simpl in *.
    intros ->. discriminate.
  - reflexivity.
  - subst request. unfold request_dict. cbn [filter snd is_not_None].
    rewrite Hc.
    destruct (is_not_None text); reflexivity.
  - intros k v Hin. subst request. unfold request_dict.
    cbn [filter snd is_not_None]. rewrite Hc.
    simpl in Hin.
    destruct Hin as [[= <- <-] | [[= <- <-] | [[= <- <-] | [[= <- <-] | []]]]];
      destruct (is_not_None text) eqn:?, (is_not_None params) eqn:?,
               (is_not_None frame) eqn:?, (is_not_None history) eqn:?;
      reflexivity.
  - intros pre url' hs data post. subst request.
    unfold_py. cbn [trace].
    destruct (json.dumps _) as [enc | e] eqn:Hd; cbv beta iota.
    2: { cbn [snd trace]. intros H.
         rewrite <- (app_nil_r (trace w)) in H at 1.
         apply app_inv_head in H. destruct pre; discriminate. }
    assert (forall (t evs : list (event RSAPrivateKey)),
              t = trace w ++ evs ->
              evs = [GenerateSignature secret enc]
              \/ (exists hs0, evs = [GenerateSignature secret enc; Post url hs0 enc]) ->
              t = trace w ++ pre ++ Post url' hs data :: post ->
              Ok enc = Ok data) as Hinv.
    { intros t evs -> Hs H. apply app_inv_head in H. subst evs.
      destruct Hs as [E | (hs0 & E)];
        destruct pre as [|e1 [|e2 pre]]; simpl in E; try discriminate;
        try (destruct pre; discriminate).
      inversion E; reflexivity. }
    destruct (crypto.generate_signature secret enc) as [sg | e];
      cbv beta iota; cbn [snd trace].
    2: { apply Hinv with (evs := [GenerateSignature secret enc]); auto. }
    match goal with
    | |- context [requests.post ?a ?b ?c] =>
        destruct (requests.post a b c) as [res | e]; cbv beta iota
    end.
    2: { cbn [snd trace]. rewrite <- app_assoc.
         eapply Hinv; [reflexivity | right; eexists; reflexivity]. }
    destruct (status_code res =? 200)%Z; cbn [negb]; cbv beta iota.
    2: { cbn [snd trace]. rewrite <- app_assoc.
         eapply Hinv; [reflexivity | right; eexists; reflexivity]. }
    destruct (res_json res) as [rb | e]; cbv beta iota.
    2: { cbn [snd trace]. rewrite <- app_assoc.
         eapply Hinv; [reflexivity | right; eexists; reflexivity]. }
    destruct (py_get rb (u "challenge") PyNone) as [echoed | e]; cbv beta iota.
    2: { cbn [snd trace]. rewrite <- app_assoc.
         eapply Hinv; [reflexivity | right; eexists; reflexivity]. }
    destruct (ne_str echoed _); cbv beta iota; cbn [snd trace];
      rewrite <- app_assoc;
      (eapply Hinv; [reflexivity | right; eexists; reflexivity]).
Qed.

(** C8 (amended): when the platform answers a signed request, or a health
    check, with status 200 and a JSON object, the call returns that object
    as it came if its [challenge] is the very string drawn for the call,
    and raises [ClientChallengeValidationError] if the key is missing or
    holds anything else. *)
Theorem echoed_challenge_decides_outbound_result
  (secret : pystr) (text : pyval) (url : pystr)
  (context params frame history : pyval) (w : world RSAPrivateKey) (d : dict) :
  (post_answers secret text url context params frame history w d ->
   (dict_get d (u "challenge") = Some (PyStr (drawn_challenge w)) ->
    fst (make_request secret text url context params frame history w)
    = Ok (PyDict d)) /\
   (dict_get d (u "challenge") <> Some (PyStr (drawn_challenge w)) ->
    fst (make_request secret text url context params frame history w)
    = Raise (Exn ClientChallengeValidationError "Response failed challenge"
               None))) /\
  (get_answers secret url w d ->
   (dict_get d (u "challenge") = Some (PyStr (drawn_challenge w)) ->
    fst (make_health_check secret url w) = Ok (PyDict d)) /\
   (dict_get d (u "challenge") <> Some (PyStr (drawn_challenge w)) ->
    fst (make_health_check secret url w)
    = Raise (Exn ClientChallengeValidationError "Response failed challenge"
               None))).
Proof.
  split.
  - intros (enc & sg & res & Hd & Hs & Hp & Hst & Hj).
    unfold drawn_challenge in *.
    unfold_py. rewrite Hd; cbv beta iota. rewrite Hs; cbv beta iota.
    rewrite Hp; cbv beta iota. rewrite Hst; cbn [Z.eqb Pos.eqb negb].
    cbv beta iota. rewrite Hj; cbv beta iota. rewrite py_get_dict.
    cbv beta iota.
    split; intros H.
    + apply ne_str_get in H. rewrite H. reflexivity.
    + destruct (ne_str _ _) eqn:E; [reflexivity|].
      apply ne_str_get in E. contradiction.
  - intros (sg & res & Hs & Hp & Hst & Hj).
    unfold drawn_challenge in *.
    unfold_py. rewrite Hs; cbv beta iota.
    rewrite Hp; cbv beta iota. rewrite Hst; cbn [Z.eqb Pos.eqb negb].
    cbv beta iota. rewrite Hj; cbv beta iota. rewrite py_get_dict.
    cbv beta iota.
    split; intros H.
    + apply ne_str_get in H. rewrite H. reflexivity.
    + destruct (ne_str _ _) eqn:E; [reflexivity|].
      apply ne_str_get in E. contradiction.
Qed.

End Outbound.

(* ================================================================== *)
(** * Concrete runs *)

Module Runs.
Import Fixture.

(** The end-to-end run: the signed and encrypted "turn on the lights"
    request validates to its plaintext object and challenge. *)
Example validate_lights :
  fst (run_validate (envelope_text lights_signature lights_message))
  = Ok (lights_value, PyStr (u "abc123")).
Proof. vm_compute. reflexivity. Qed.

(** A signature made for another message is a signature failure, and the
    cipher is not called. *)
Example validate_forged :
  exists e,
    run_validate (envelope_text hi_signature lights_message)
    = (Raise (Exn SignatureValidationError "Invalid signature" (Some e)),
       {| trace := [VerifySignature secret0
                      (ascii_bytes (u lights_message))
                      (toy_sign secret0 (ascii_bytes (u hi_message)))];
          entropy := entropy world0; cursor := 0 |}).
Proof. eexists. vm_compute. reflexivity. Qed.

(** A body that is JSON but not an object ends in the catch-all. *)
Example validate_array :
  fst (run_validate empty_array)
  = Raise (Exn RequestValidationError "Cannot validate request"
             (Some (Exn AttributeError "'list' object has no attribute 'get'"
                      None))).
Proof. vm_compute. reflexivity. Qed.

Lemma decrypt_only_after_verified_signature_witness :
  tt = tt /\
  exists s payload sig,
    @envelope_parses toy_json
      (envelope_text lights_signature lights_message) s
      (PyStr (u lights_message)) /\
    str_encode (PyStr (u lights_message)) = Ok payload /\
    b64decode s = Ok sig /\
    toy_verify secret0 payload sig = Ok tt /\
    [VerifySignature secret0 (ascii_bytes (u lights_message))
       (toy_sign secret0 (ascii_bytes (u lights_message)))]
    = [@VerifySignature unit secret0 payload sig].
Proof.
  apply (@decrypt_only_after_verified_signature unit toy_crypto toy_json
           secret0 tt (envelope_text lights_signature lights_message) world0
           [VerifySignature secret0 (ascii_bytes (u lights_message))
              (toy_sign secret0 (ascii_bytes (u lights_message)))]
           tt (PyStr (u lights_message)) []).
  vm_compute. reflexivity.
Defined.

Lemma missing_envelope_field_is_signature_failure_witness :
  exists msg,
    run_validate empty_object
    = (Raise (Exn SignatureValidationError msg None), world0).
Proof.
  apply (@missing_envelope_field_is_signature_failure unit toy_crypto toy_json
           secret0 tt empty_object world0).
  right. exists []. split; [reflexivity | left; reflexivity].
Defined.

(** C2, as stated, fails: the body [[]] is JSON and has no [signature]
    field, yet it is not reported as a signature failure. *)
Lemma array_body_is_not_a_signature_failure :
  exists e,
    json.loads (t := toy_json) empty_array = Ok (PyList []) /\
    fst (run_validate empty_array) = Raise e /\
    exn_class e = RequestValidationError /\
    isinstance e SignatureValidationError = false.
Proof. eexists. vm_compute. repeat split. Qed.

(** C3: the code at the failing input.  A signature that is well-formed
    base64 but does not match is reported as [SignatureValidationError];
    the signature [a], which is not base64, is reported as the plain
    [RequestValidationError] ("Cannot validate request") around the
    [binascii.Error] of the decoder and logged as unexpected: not a
    signature failure. *)
Lemma malformed_signature_is_not_a_signature_failure :
  (exists cause,
     exn_class cause = InvalidSignature /\
     fst (run_validate (envelope_text hi_signature lights_message))
     = Raise (Exn SignatureValidationError "Invalid signature" (Some cause)))
  /\
  (exists e cause,
     b64decode (PyStr (u malformed_signature)) = Raise cause /\
     exn_class cause = binascii_Error /\
     run_validate (envelope_text malformed_signature "m")
     = (Raise e,
        {| trace := [LogException "Unexpected error validating request"];
           entropy := entropy world0; cursor := 0 |}) /\
     e = Exn RequestValidationError "Cannot validate request" (Some cause) /\
     isinstance e SignatureValidationError = false).
Proof.
  split.
  - eexists. split; [|vm_compute; reflexivity]. reflexivity.
  - eexists. eexists. split; [vm_compute; reflexivity|].
    split; [reflexivity|]. split; [vm_compute; reflexivity|].
    split; reflexivity.
Qed.

Lemma missing_challenge_is_server_challenge_failure_witness :
  fst (run_validate (envelope_text hi_signature hi_message))
  = Raise (Exn ServerChallengeValidationError "Missing challenge" None).
Proof.
  apply (@missing_challenge_is_server_challenge_failure unit toy_crypto
           toy_json secret0 tt (envelope_text hi_signature hi_message) world0
           (PyStr (u hi_signature)) (PyStr (u hi_message))
           (ascii_bytes hi_text) [(u "text", PyStr (u "hi"))]).
  - fixture_parses hi_signature hi_message.
  - fixture_verifies hi_message.
  - vm_compute. reflexivity.
  - vm_compute. reflexivity.
  - reflexivity.
Defined.



(** C7, as stated, fails: a caller that supplies no context still sends
    one. *)
Lemma context_is_sent_though_not_supplied :
  exists hs sg,
    trace (snd (run_request echo_reply (PyStr (u "hi")) PyNone))
    = [GenerateSignature secret0 sg;
       Post default_url hs
         (toy_dumps
            (PyDict [(u "challenge", PyStr challenge0);
                     (u "text", PyStr (u "hi"));
                     (u "context", default_context)]))] /\
    dict_get (request_dict challenge0 (PyStr (u "hi")) PyNone PyNone PyNone
                PyNone) (u "context")
    = Some default_context.
Proof. eexists. eexists. vm_compute. split; reflexivity. Qed.

Lemma request_dict_shape_witness :
  json.dumps (t := toy_json)
    (PyDict (request_dict challenge0 (PyStr (u "hi")) PyNone PyNone PyNone
               PyNone))
  = Ok (toy_dumps
          (PyDict [(u "challenge", PyStr challenge0);
                   (u "text", PyStr (u "hi"));
                   (u "context", default_context)])).
Proof.
  refine (proj2 (proj2 (proj2 (proj2
    (@request_dict_shape unit toy_crypto toy_json (toy_requests echo_reply)
       secret0 (PyStr (u "hi")) default_url PyNone PyNone PyNone PyNone
       world0))))
    [GenerateSignature secret0
       (toy_dumps
          (PyDict [(u "challenge", PyStr challenge0);
                   (u "text", PyStr (u "hi"));
                   (u "context", default_context)]))]
    default_url
    [ (u "X-Webex-Assistant-Signature",
       bytes_hex (toy_sign secret0 (ascii_bytes (toy_dumps
          (PyDict [(u "challenge", PyStr challenge0);
                   (u "text", PyStr (u "hi"));
                   (u "context", default_context)])))));
      (u "Content-Type", u "application/octet-stream");
      (u "Accept", u "application/json") ]
    _ [] _).
  vm_compute. reflexivity.
Defined.

Lemma echoed_challenge_decides_outbound_result_witness :
  fst run_health_check
  = Ok (PyDict [(u "challenge", PyStr challenge0); (u "status", PyStr (u "up"))])
  /\
  fst (run_request stale_reply (PyStr (u "hi")) PyNone)
  = Raise (Exn ClientChallengeValidationError "Response failed challenge" None).
Proof.
  split.
  - refine (proj1 (proj2
      (@echoed_challenge_decides_outbound_result unit toy_crypto toy_json
         (toy_requests echo_reply) secret0 PyNone default_url
         PyNone PyNone PyNone PyNone world0
         [(u "challenge", PyStr challenge0); (u "status", PyStr (u "up"))])
      _) _).
    + eexists. eexists. repeat split; vm_compute; reflexivity.
    + vm_compute. reflexivity.
  - refine (proj2 (proj1
      (@echoed_challenge_decides_outbound_result unit toy_crypto toy_json
         (toy_requests stale_reply) secret0 (PyStr (u "hi")) default_url
         PyNone PyNone PyNone PyNone world0
         [(u "challenge", PyStr (u "abc123"))])
      _) _).
    + do 3 eexists. repeat split; vm_compute; reflexivity.
    + vm_compute. discriminate.
Defined.

Lemma validate_request_returns_parsed_payload_and_its_challenge_witness :
  exists s m decrypted_body d,
    @envelope_parses toy_json
      (envelope_text lights_signature lights_message) s m /\
    @signature_verifies unit toy_crypto secret0 s m /\
    toy_decrypt tt m = Ok decrypted_body /\
    json.loads (t := toy_json) (OfBytes decrypted_body) = Ok lights_value /\
    lights_value = PyDict d /\
    dict_get d (u "challenge") = Some (PyStr (u "abc123")) /\
    truthy (PyStr (u "abc123")) = true.
Proof.
  apply (@validate_request_returns_parsed_payload_and_its_challenge
           unit toy_crypto toy_json secret0 tt
           (envelope_text lights_signature lights_message) world0
           lights_value (PyStr (u "abc123"))).
  vm_compute. reflexivity.
Defined.

End Runs.

(* ================================================================== *)
(** * Inbound validation: the other paths *)

Lemma app_eq_self_inv {A} (l x : list A) : l = l ++ x -> [] = x.
Proof.
  intros H. rewrite <- (app_nil_r l) in H at 1.
  apply app_inv_head in H. exact H.
Qed.

(** Reading [evs = pre ++ ev :: post] for a known list [evs]: either [ev]
    is its head, or its head is the head of [pre]. *)
Ltac trace_cases H :=
  lazymatch type of H with
  | [] = ?p ++ _ :: _ => destruct p; discriminate H
  | _ :: _ = ?p ++ _ :: _ =>
      let e := fresh "e" in
      let p' := fresh "pre" in
      destruct p as [|e p']; cbn [app] in H;
      [ try discriminate H
      | let E := fresh "E" in injection H as E H; subst e; trace_cases H ]
  end.

Ltac trace_inv H :=
  repeat rewrite <- app_assoc in H; cbn [app] in H;
  first [apply app_inv_head in H | apply app_eq_self_inv in H];
  trace_cases H.

Section InboundPaths.
Context {RSAPrivateKey : Type}.
Context {Crypto : crypto.t RSAPrivateKey} {Json : json.t}.

Local Notation "'Unexpected'" :=
  (@LogException RSAPrivateKey "Unexpected error validating request").

Local Notation "'logged' w" :=
  {| trace := trace w ++ [Unexpected]; entropy := entropy w; cursor := cursor w |}
  (at level 10).

(** X1: an envelope that parses, whose signature verifies, whose message
    decrypts to a JSON object with a truthy [challenge] is accepted:
    [validate_request] returns that object and that challenge, of whatever
    JSON type, having called the verifier and then the cipher, once each,
    and logged nothing. *)
Theorem validate_request_accepts
  secret (private_key : RSAPrivateKey) body w s m payload sig
  decrypted_body d challenge :
  envelope_parses body s m ->
  str_encode m = Ok payload -> b64decode s = Ok sig ->
  crypto.verify_signature secret payload sig = Ok tt ->
  crypto.decrypt private_key m = Ok decrypted_body ->
  json.loads (OfBytes decrypted_body) = Ok (PyDict d) ->
  dict_get d (u "challenge") = Some challenge -> truthy challenge = true ->
  validate_request secret private_key body w
  = (Ok (PyDict d, challenge),
     {| trace := trace w ++ [VerifySignature secret payload sig;
                             Decrypt private_key m];
        entropy := entropy w; cursor := cursor w |}).
Proof.
  intros Hp He Hd Hv Hdec Hl Hc Tc.
  unfold validate_request, try_except at 1.
  rewrite (validate_request_try_from_verify _ _ _ _ _ _ _ _ Hp He Hd).
  cbv [bind call_verify_signature call_decrypt emit lift try_except raise_if ret].
  rewrite Hv. cbn [trace entropy cursor]. rewrite Hdec, Hl, py_get_dict, Hc, Tc.
  cbn [negb]. rewrite <- app_assoc. reflexivity.
Qed.

(** X2: whenever [crypto.verify_signature] is called, it is the first
    call of the run and the only one to the verifier so far, it gets the
    caller's secret, the UTF-8 octets of the envelope's [message] exactly
    as received, and the base64 decoding of the envelope's [signature]. *)
Theorem verifier_sees_the_message_as_received
  secret (private_key : RSAPrivateKey) body w pre sec payload sig post :
  trace (snd (validate_request secret private_key body w))
    = trace w ++ pre ++ VerifySignature sec payload sig :: post ->
  pre = [] /\ sec = secret /\
  exists s m,
    envelope_parses body s m /\
    str_encode m = Ok payload /\ b64decode s = Ok sig.
Proof.
  intros H.
  destruct (validate_request_trace secret private_key body w)
    as (evs & Ht & Hshape).
  rewrite Ht in H. apply app_inv_head in H. subst evs.
  destruct Hshape as [E | [E | (s & m & p & g & Hp & He & Hd & Hv)]].
  - destruct pre; discriminate.
  - destruct pre as [|? [|? ?]]; discriminate.
  - destruct Hv as [(_ & [E | E]) | (_ & [E | E])];
      destruct pre as [|e1 [|e2 [|e3 pre]]]; cbn [app] in E;
      try discriminate; try (destruct pre; discriminate).
    all: injection E as -> -> ->.
    all: split; [reflexivity|]; split; [reflexivity|]; eauto.
Qed.

(** X3: a non-empty body that [json.loads] refuses never gets a
    signature failure: the parser's error is wrapped in the generic
    [RequestValidationError] and logged (or passes through unlogged, should
    the parser raise a [RequestValidationError]); no collaborator is
    called. *)
Theorem unparseable_body_is_generic_failure
  secret (private_key : RSAPrivateKey) body w e :
  strbytes_truthy body = true ->
  json.loads body = Raise e ->
  validate_request secret private_key body w
  = if isinstance e RequestValidationError then (Raise e, w)
    else (Raise (Exn RequestValidationError "Cannot validate request" (Some e)),
          logged w).
Proof.
  intros Hb Hl. unfold_py. rewrite Hb; cbn [negb]. rewrite Hl.
  destruct (isinstance e RequestValidationError); reflexivity.
Qed.

(** X4: a body that is JSON but not an object (an array, a string, a
    number, [true], [null]) is not a signature failure either: the
    [AttributeError] of [.get] is wrapped in the generic
    [RequestValidationError] and logged; no collaborator is called. *)
Theorem non_object_body_is_generic_failure
  secret (private_key : RSAPrivateKey) body w v :
  strbytes_truthy body = true ->
  json.loads body = Ok v ->
  (forall d, v <> PyDict d) ->
  exists cause,
    exn_class cause = AttributeError /\
    validate_request secret private_key body w
    = (Raise (Exn RequestValidationError "Cannot validate request" (Some cause)),
       logged w).
Proof.
  intros Hb Hl Hv. unfold_py. rewrite Hb; cbn [negb]. rewrite Hl.
  destruct v as [ | b | z | f | t | xs | items];
    try (eexists; split; [|reflexivity]; reflexivity).
  destruct (Hv items eq_refl).
Qed.

(** X5: when the [signature] or the [message] of the envelope is not a
    string (a number, a list, an object, [true]), validation ends in the
    generic [RequestValidationError], logged, before the verifier or the
    cipher is called. *)
Theorem non_string_field_is_generic_failure
  secret (private_key : RSAPrivateKey) body w s m :
  envelope_parses body s m ->
  (forall t, s <> PyStr t) \/ (forall t, m <> PyStr t) ->
  exists cause,
    isinstance cause RequestValidationError = false /\
    validate_request secret private_key body w
    = (Raise (Exn RequestValidationError "Cannot validate request" (Some cause)),
       logged w).
Proof.
  intros Hp Hns.
  apply envelope_parses_elim in Hp as (Hb & jb & Hl & Hs & Hm & Ts & Tm).
  unfold_py. rewrite Hb; cbn [negb]. rewrite Hl, Hs, Hm, Ts, Tm; cbn [negb].
  destruct (str_encode m) as [payload | e] eqn:He.
  - destruct (b64decode s) as [sig | e] eqn:Hd.
    + exfalso. destruct Hns as [Hn | Hn].
      * destruct s; try discriminate. exact (Hn _ eq_refl).
      * destruct m; try discriminate. exact (Hn _ eq_refl).
    + pose proof (b64decode_Raise_inv _ _ Hd) as Hn.
      rewrite Hn. eauto.
  - assert (Hn : isinstance e RequestValidationError = false).
    { unfold str_encode in He. destruct m; try (injection He as <-; reflexivity).
      destruct (utf8 s0); [discriminate | injection He as <-; reflexivity]. }
    rewrite Hn. eauto.
Qed.

(** X6: a run of [validate_request] writes to the log at most once, as
    its last act, and only on the way to raising the generic
    [RequestValidationError] around an error that is not itself a
    [RequestValidationError]: an accepted request and the recognized
    failures (missing field, invalid signature, malformed payload, missing
    challenge) are never logged. *)
Theorem logged_only_when_wrapping
  secret (private_key : RSAPrivateKey) body w pre msg post :
  trace (snd (validate_request secret private_key body w))
    = trace w ++ pre ++ LogException msg :: post ->
  post = [] /\ msg = "Unexpected error validating request" /\
  (forall msg', ~ In (LogException msg') pre) /\
  exists cause,
    isinstance cause RequestValidationError = false /\
    fst (validate_request secret private_key body w)
    = Raise (Exn RequestValidationError "Cannot validate request"
               (Some cause)).
Proof.
  destruct (validate_request secret private_key body w) as [r w'] eqn:E.
  cbn [fst snd]. revert E. unfold_py. repeat run_step.
  all: intros E; injection E as <- <-; cbn [trace]; intros H; trace_inv H.
  all: try match goal with
           | F : isinstance (Exn _ _ _) _ = false |- _ =>
               vm_compute in F; discriminate F
           end.
  all: injection H as <- <-.
  all: split; [reflexivity|]; split; [reflexivity|]; split.
  all: try (intros msg' Hin; cbn [In] in Hin; intuition discriminate).
  all: eexists; split; [eassumption | reflexivity].
Qed.

(** X7: inbound validation keeps to itself: it draws no entropy, and
    every event it adds is a call of the verifier, a call of the cipher or
    a log entry; it never signs anything and never talks to the network. *)
Theorem validate_request_stays_inbound
  secret (private_key : RSAPrivateKey) body w :
  exists evs,
    snd (validate_request secret private_key body w)
    = {| trace := trace w ++ evs; entropy := entropy w; cursor := cursor w |}
    /\ existsb is_outbound_event evs = false.
Proof.
  unfold_py. repeat run_step.
  all: cbn [snd]; repeat rewrite <- app_assoc; cbn [app].
  all: try (exists []; rewrite app_nil_r; destruct w; split; reflexivity).
  all: eexists; split; [reflexivity | reflexivity].
Qed.

End InboundPaths.

(* ================================================================== *)
(** * Outbound requests: the other paths *)

Ltac run_out_step :=
  match goal with
  | |- context [@json.dumps ?J ?v] => case_on (@json.dumps J v)
  | |- context [@crypto.generate_signature ?K ?C ?s ?p] =>
      case_on (@crypto.generate_signature K C s p)
  | |- context [@requests.post ?R ?a ?b ?c] => case_on (@requests.post R a b c)
  | |- context [@requests.get ?R ?a ?b ?c] => case_on (@requests.get R a b c)
  | |- context [(status_code ?r =? 200)%Z] => case_on (status_code r =? 200)%Z
  | |- context [res_json ?r] => case_on (res_json r)
  | |- context [py_get ?v ?k ?d] => case_on (py_get v k d)
  | |- context [ne_str ?v ?s] => case_on (ne_str v s)
  end.

Lemma hexdigit_of_inj (x y : N) :
  x < 16 -> y < 16 -> hexdigit_of x = hexdigit_of y -> x = y.
Proof.
  unfold hexdigit_of. intros Hx Hy.
  destruct (N.ltb_spec x 10), (N.ltb_spec y 10); lia.
Qed.

Lemma hex_of_byte_inj (a b : byte) : hex_of_byte a = hex_of_byte b -> a = b.
Proof.
  unfold hex_of_byte. intros [= H1 H2].
  assert (Ha := Stdlib.Strings.Byte.to_N_bounded a).
  assert (Hb := Stdlib.Strings.Byte.to_N_bounded b).
  apply hexdigit_of_inj in H1;
    [| apply N.Div0.div_lt_upper_bound; lia
     | apply N.Div0.div_lt_upper_bound; lia].
  apply hexdigit_of_inj in H2; [| apply N.mod_lt; lia | apply N.mod_lt; lia].
  assert (E : Byte.to_N a = Byte.to_N b).
  { rewrite (N.div_mod (Byte.to_N a) 16), (N.div_mod (Byte.to_N b) 16) by lia.
    congruence. }
  pose proof (Stdlib.Strings.Byte.of_to_N a) as Pa.
  pose proof (Stdlib.Strings.Byte.of_to_N b) as Pb.
  congruence.
Qed.

Lemma bytes_hex_inj (a b : bytes) : bytes_hex a = bytes_hex b -> a = b.
Proof.
  revert b; induction a as [|x a IH]; destruct b as [|y b]; cbn;
    try discriminate; [reflexivity|].
  intros [= H1 H2 H]. f_equal; [|exact (IH _ H)].
  apply hex_of_byte_inj. unfold hex_of_byte. congruence.
Qed.

(** X14: the hex encoding loses nothing of the draw: two calls that draw
    different octets get different challenges. *)
Theorem different_draws_give_different_challenges
  (K : Type) (w1 w2 : world K) :
  map (entropy w1) (seq (cursor w1) 64) <> map (entropy w2) (seq (cursor w2) 64) ->
  drawn_challenge w1 <> drawn_challenge w2.
Proof.
  intros Hne E. apply Hne. exact (bytes_hex_inj _ _ E).
Qed.

(** X15: the object [make_request] builds has no key beyond [challenge],
    [text], [context], [params], [frame] and [history], and none of them
    twice. *)
Theorem request_dict_keys
  (challenge : pystr) (text context params frame history : pyval) :
  let request := request_dict challenge text context params frame history in
  (forall k, In k (map fst request) -> In k request_keys) /\
  NoDup (map fst request).
Proof.
  intros request. subst request. unfold request_dict.
  cbn [filter snd is_not_None].
  destruct (is_not_None text), (is_not_None params), (is_not_None frame),
    (is_not_None history),
    (is_not_None (if truthy context then context else default_context)).
  all: split;
    [ intros k Hin; cbn [map fst In] in Hin; unfold request_keys; cbn [In];
      tauto
    | cbn [map fst]; repeat constructor; cbn [In];
      vm_compute; intuition discriminate ].
Qed.

Section OutboundPaths.
Context {RSAPrivateKey : Type}.
Context {Crypto : crypto.t RSAPrivateKey} {Json : json.t} {Requests : requests.t}.

(** X8: [make_request] posts at most once, to the caller's url, and only
    after signing: the one event before the POST is the signing of exactly
    the text that is posted, and the signature it returned is the value
    of the [X-Webex-Assistant-Signature] header. *)
Theorem request_is_signed_as_sent
  (secret : pystr) (text : pyval) (url : pystr)
  (context params frame history : pyval) (w : world RSAPrivateKey)
  pre url' hs data post :
  trace (snd (make_request secret text url context params frame history w))
    = trace w ++ pre ++ Post url' hs data :: post ->
  pre = [GenerateSignature secret data] /\ post = [] /\ url' = url /\
  exists signature,
    crypto.generate_signature secret data = Ok signature /\
    hs = [ (u "X-Webex-Assistant-Signature", signature);
           (u "Content-Type", u "application/octet-stream");
           (u "Accept", u "application/json") ].
Proof.
  match goal with |- _ -> ?G => set (Q := G) end.
  unfold_py. repeat run_out_step.
  all: cbn [snd trace]; intros H; trace_inv H; subst Q.
  all: injection H as <- <- <- <-.
  all: repeat (split; [reflexivity|]).
  all: eexists; split; [first [eassumption | reflexivity] | reflexivity].
Qed.

(** X9: [make_health_check] sends at most one GET, to the caller's url,
    and only after signing: what it signs is the raw challenge of the
    call, the very string it sends as [payload], and the signature is the
    value of the [X-Webex-Assistant-Signature] header. *)
Theorem health_check_is_signed_as_sent
  (secret url : pystr) (w : world RSAPrivateKey) pre url' hs params post :
  trace (snd (make_health_check secret url w))
    = trace w ++ pre ++ Get url' hs params :: post ->
  pre = [GenerateSignature secret (drawn_challenge w)] /\ post = [] /\
  url' = url /\ params = [(u "payload", drawn_challenge w)] /\
  exists signature,
    crypto.generate_signature secret (drawn_challenge w) = Ok signature /\
    hs = [ (u "X-Webex-Assistant-Signature", signature);
           (u "Accept", u "application/json") ].
Proof.
  unfold drawn_challenge.
  match goal with |- _ -> ?G => set (Q := G) end.
  unfold_py. repeat run_out_step.
  all: cbn [snd trace]; intros H; trace_inv H; subst Q.
  all: injection H as <- <- <- <-.
  all: repeat (split; [reflexivity|]).
  all: eexists; split; [first [eassumption | reflexivity] | reflexivity].
Qed.

(** X10: a response whose status is not 200 makes [make_request] raise
    [ResponseValidationError] ("Request failed") and [make_health_check]
    raise [ResponseValidationError] ("Health check failed"), whatever the
    body of the response: it is not read, even if it echoes the right
    challenge. *)
Theorem non_200_is_response_failure
  (secret : pystr) (text : pyval) (url : pystr)
  (context params frame history : pyval) (w : world RSAPrivateKey)
  (res : Response) :
  status_code res <> 200%Z ->
  (post_replies secret text url context params frame history w res ->
   fst (make_request secret text url context params frame history w)
   = Raise (Exn ResponseValidationError "Request failed" None)) /\
  (get_replies secret url w res ->
   fst (make_health_check secret url w)
   = Raise (Exn ResponseValidationError "Health check failed" None)).
Proof.
  intros Hst. apply Z.eqb_neq in Hst.
  split.
  - intros (enc & sg & Hd & Hs & Hp). unfold drawn_challenge in *.
    unfold_py. rewrite Hd; cbv beta iota. rewrite Hs; cbv beta iota.
    rewrite Hp; cbv beta iota. rewrite Hst. reflexivity.
  - intros (sg & Hs & Hp). unfold drawn_challenge in *.
    unfold_py. rewrite Hs; cbv beta iota.
    rewrite Hp; cbv beta iota. rewrite Hst. reflexivity.
Qed.

(** X11: a 200 response whose body is JSON but not an object (an array, a
    string, a number) is not reported as a challenge failure: the
    [AttributeError] of [.get] leaves [make_request] and
    [make_health_check] as it is. *)
Theorem non_object_response_is_attribute_error
  (secret : pystr) (text : pyval) (url : pystr)
  (context params frame history : pyval) (w : world RSAPrivateKey)
  (res : Response) (v : pyval) :
  status_code res = 200%Z -> res_json res = Ok v ->
  (forall d, v <> PyDict d) ->
  (post_replies secret text url context params frame history w res ->
   exists e, exn_class e = AttributeError /\
     fst (make_request secret text url context params frame history w)
     = Raise e) /\
  (get_replies secret url w res ->
   exists e, exn_class e = AttributeError /\
     fst (make_health_check secret url w) = Raise e).
Proof.
  intros Hst Hj Hv.
  split.
  - intros (enc & sg & Hd & Hs & Hp). unfold drawn_challenge in *.
    unfold_py. rewrite Hd; cbv beta iota. rewrite Hs; cbv beta iota.
    rewrite Hp; cbv beta iota. rewrite Hst; cbn [Z.eqb Pos.eqb negb].
    cbv beta iota. rewrite Hj; cbv beta iota.
    destruct v as [ | b | z | f | t | xs | items];
      try (eexists; split; [|reflexivity]; reflexivity).
    destruct (Hv items eq_refl).
  - intros (sg & Hs & Hp). unfold drawn_challenge in *.
    unfold_py. rewrite Hs; cbv beta iota.
    rewrite Hp; cbv beta iota. rewrite Hst; cbn [Z.eqb Pos.eqb negb].
    cbv beta iota. rewrite Hj; cbv beta iota.
    destruct v as [ | b | z | f | t | xs | items];
      try (eexists; split; [|reflexivity]; reflexivity).
    destruct (Hv items eq_refl).
Qed.

(** X12: outbound failures are not wrapped.  Whatever [make_request]
    raises is exactly what the first failing step raised: [json.dumps] on
    the request object, [crypto.generate_signature] on its encoding,
    [requests.post] on the signed request, or, once a response is there,
    [ResponseValidationError] for a status other than 200, the error of
    the response's JSON decoder, the [AttributeError] of [.get] on a body
    that is not an object, or [ClientChallengeValidationError] for an
    object that does not echo the challenge.  The same holds of
    [make_health_check], which signs the challenge and has no encoder. *)
Theorem outbound_errors_are_not_wrapped
  (secret : pystr) (text : pyval) (url : pystr)
  (context params frame history : pyval) (w : world RSAPrivateKey) (e : exn) :
  (fst (make_request secret text url context params frame history w) = Raise e ->
   let request :=
     PyDict (request_dict (drawn_challenge w) text context params frame
               history) in
   json.dumps request = Raise e \/
   (exists encoded_request,
      json.dumps request = Ok encoded_request /\
      crypto.generate_signature secret encoded_request = Raise e) \/
   (exists encoded_request signature,
      json.dumps request = Ok encoded_request /\
      crypto.generate_signature secret encoded_request = Ok signature /\
      requests.post url
        [ (u "X-Webex-Assistant-Signature", signature);
          (u "Content-Type", u "application/octet-stream");
          (u "Accept", u "application/json") ] encoded_request = Raise e) \/
   (exists res,
      post_replies secret text url context params frame history w res /\
      raised_on_response "Request failed" (drawn_challenge w) res e)) /\
  (fst (make_health_check secret url w) = Raise e ->
   crypto.generate_signature secret (drawn_challenge w) = Raise e \/
   (exists signature,
      crypto.generate_signature secret (drawn_challenge w) = Ok signature /\
      requests.get url
        [ (u "X-Webex-Assistant-Signature", signature);
          (u "Accept", u "application/json") ]
        [(u "payload", drawn_challenge w)] = Raise e) \/
   (exists res,
      get_replies secret url w res /\
      raised_on_response "Health check failed" (drawn_challenge w) res e)).
Proof.
  assert (Hne : forall v x s,
            py_get v (u "challenge") PyNone = Ok x -> ne_str x s = true ->
            exists d, v = PyDict d /\
              dict_get d (u "challenge") <> Some (PyStr s)).
  { intros v x s Hg Hn. apply py_get_Ok_inv in Hg as (d & -> & ->).
    exists d. split; [reflexivity|]. intros E.
    apply ne_str_get in E. congruence. }
  unfold post_replies, get_replies, raised_on_response, drawn_challenge.
  split.
  - match goal with |- _ -> ?G => set (Q := G) end.
    unfold_py. repeat run_out_step.
    all: cbn [fst]; intros H; try discriminate H; injection H as <-; subst Q;
      cbv zeta.
    all: repeat match goal with
                | F : (_ =? _)%Z = true |- _ => apply Z.eqb_eq in F
                | F : (_ =? _)%Z = false |- _ => apply Z.eqb_neq in F
                end.
    all: try match goal with
             | G : py_get _ _ _ = Ok _, N : ne_str _ _ = true |- _ =>
                 destruct (Hne _ _ _ G N) as (d & -> & Hd)
             end.
    all: try (left; first [assumption | reflexivity]).
    all: try (right; left; eexists; split;
              [first [eassumption | reflexivity]
              | first [assumption | reflexivity]]).
    all: try (right; right; left; do 2 eexists; split;
              [first [eassumption | reflexivity]
              | split; [first [eassumption | reflexivity]
                       | first [assumption | reflexivity]]]).
    all: right; right; right; eexists; split;
      [ do 2 eexists; split; [first [eassumption | reflexivity]|];
        split; first [eassumption | reflexivity] |].
    all: first
      [ left; split; [assumption | reflexivity]
      | right; split; [assumption|]; left; assumption
      | right; split; [assumption|]; right; eexists;
        split; [eassumption|]; left; assumption
      | right; split; [assumption|]; right; eexists;
        split; [eassumption|]; right; eexists;
        split; [reflexivity|]; split; [eassumption | reflexivity] ].
  - match goal with |- _ -> ?G => set (Q := G) end.
    unfold_py. repeat run_out_step.
    all: cbn [fst]; intros H; try discriminate H; injection H as <-; subst Q.
    all: repeat match goal with
                | F : (_ =? _)%Z = true |- _ => apply Z.eqb_eq in F
                | F : (_ =? _)%Z = false |- _ => apply Z.eqb_neq in F
                end.
    all: try match goal with
             | G : py_get _ _ _ = Ok _, N : ne_str _ _ = true |- _ =>
                 destruct (Hne _ _ _ G N) as (d & -> & Hd)
             end.
    all: try (left; first [assumption | reflexivity]).
    all: try (right; left; eexists; split;
              [first [eassumption | reflexivity]
              | first [assumption | reflexivity]]).
    all: right; right; eexists; split;
      [ eexists; split; first [eassumption | reflexivity] |].
    all: first
      [ left; split; [assumption | reflexivity]
      | right; split; [assumption|]; left; assumption
      | right; split; [assumption|]; right; eexists;
        split; [eassumption|]; left; assumption
      | right; split; [assumption|]; right; eexists;
        split; [eassumption|]; right; eexists;
        split; [reflexivity|]; split; [eassumption | reflexivity] ].
Qed.

(** X13: each outbound call draws its 64 octets exactly once, whatever
    its outcome, so the next call in the world it leaves draws the
    following 64. *)
Theorem each_outbound_call_draws_64_octets
  (secret : pystr) (text : pyval) (url : pystr)
  (context params frame history : pyval) (w : world RSAPrivateKey) :
  let w1 := snd (make_request secret text url context params frame history w) in
  let w2 := snd (make_health_check secret url w) in
  (cursor w1 = (cursor w + 64)%nat /\ entropy w1 = entropy w /\
   drawn_challenge w1 = bytes_hex (map (entropy w) (seq (cursor w + 64) 64)))
  /\
  (cursor w2 = (cursor w + 64)%nat /\ entropy w2 = entropy w /\
   drawn_challenge w2 = bytes_hex (map (entropy w) (seq (cursor w + 64) 64))).
Proof.
  cbv zeta. unfold drawn_challenge.
  split; unfold_py; repeat run_out_step; cbn [snd cursor entropy]; auto.
Qed.

End OutboundPaths.

(* ================================================================== *)
(** * The challenge of an outbound call *)

Lemma fromhex_hex_of_byte (b : byte) :
  hex_value (hexdigit_of (Byte.to_N b / 16)) = Some (Byte.to_N b / 16) /\
  hex_value (hexdigit_of (Byte.to_N b mod 16)) = Some (Byte.to_N b mod 16) /\
  byte_of_N (16 * (Byte.to_N b / 16) + Byte.to_N b mod 16) = b.
Proof. destruct b; vm_compute; repeat split. Qed.

(** [bytes.fromhex(bs.hex()) == bs]. *)
Lemma bytes_fromhex_hex (bs : bytes) : bytes_fromhex (bytes_hex bs) = Some bs.
Proof.
  induction bs as [|b bs IH]; [reflexivity|].
  cbn [bytes_hex hex_of_byte app bytes_fromhex].
  destruct (fromhex_hex_of_byte b) as (-> & -> & ->).
  rewrite IH. reflexivity.
Qed.

Section Challenge.
Context {RSAPrivateKey : Type}.
Context {Crypto : crypto.t RSAPrivateKey} {Json : json.t} {Requests : requests.t}.

(** C9: the challenge of [make_request] and of [make_health_check] is the
    hex encoding of the next 64 octets of entropy: a string of 128
    hexadecimal digits that decodes back to those 64 octets.  It is the
    string [make_health_check] signs and sends as [payload], and the value
    of the [challenge] key of the object [make_request] encodes and then
    signs; either call leaves the entropy 64 octets further. *)
Theorem outbound_challenge_is_hex_of_64_octets
  (secret : pystr) (text : pyval) (url : pystr)
  (context params frame history : pyval) (w : world RSAPrivateKey) :
  let random := map (entropy w) (seq (cursor w) 64) in
  let challenge := bytes_hex random in
  let request := request_dict challenge text context params frame history in
  (List.length random = 64%nat /\ List.length challenge = 128%nat /\
   forallb is_hexdigit challenge = true /\
   bytes_fromhex challenge = Some random) /\
  (cursor (snd (make_health_check secret url w)) = (cursor w + 64)%nat /\
   (exists rest,
      trace (snd (make_health_check secret url w))
      = trace w ++ GenerateSignature secret challenge :: rest) /\
   (forall pre url' hs ps post,
      trace (snd (make_health_check secret url w))
      = trace w ++ pre ++ Get url' hs ps :: post ->
      ps = [(u "payload", challenge)])) /\
  (cursor (snd (make_request secret text url context params frame history w))
   = (cursor w + 64)%nat /\
   dict_get request (u "challenge") = Some (PyStr challenge) /\
   (forall e,
      json.dumps (PyDict request) = Raise e ->
      fst (make_request secret text url context params frame history w)
      = Raise e) /\
   (forall encoded_request,
      json.dumps (PyDict request) = Ok encoded_request ->
      exists rest,
        trace (snd (make_request secret text url context params frame
                      history w))
        = trace w ++ GenerateSignature secret encoded_request :: rest)).
Proof.
  cbv zeta.
  split; [|split].
  - rewrite length_bytes_hex, length_map, length_seq.
    split; [reflexivity|]. split; [reflexivity|].
    split; [apply bytes_hex_digits | apply bytes_fromhex_hex].
  - split; [|split].
    + unfold_py. repeat run_out_step; reflexivity.
    + unfold_py. repeat run_out_step.
      all: cbn [snd trace]; repeat rewrite <- app_assoc; cbn [app].
      all: eexists; reflexivity.
    + intros pre url' hs ps post.
      match goal with |- _ -> ?G => set (Q := G) end.
      unfold_py. repeat run_out_step.
      all: cbn [snd trace]; intros H; trace_inv H; subst Q.
      all: injection H as _ _ <- _; reflexivity.
  - split; [|split; [|split]].
    + unfold_py. repeat run_out_step; reflexivity.
    + reflexivity.
    + intros e He. unfold_py. rewrite He. reflexivity.
    + intros enc He. unfold_py. rewrite He. cbv beta iota.
      repeat run_out_step.
      all: cbn [snd trace]; repeat rewrite <- app_assoc; cbn [app].
      all: eexists; reflexivity.
Qed.

End Challenge.

(* ================================================================== *)
(** * More concrete runs *)

Module MoreRuns.
Import Fixture Fixture2.

Definition sent_text : pystr :=
  toy_dumps (PyDict [(u "challenge", PyStr challenge0);
                     (u "text", PyStr (u "hi"));
                     (u "context", default_context)]).

Lemma validate_request_accepts_witness :
  run_validate2 (envelope_text counter_signature counter_message)
  = (Ok (PyDict counter_items, PyInt 7),
     {| trace := trace world0
                 ++ [VerifySignature secret0 (ascii_bytes (u counter_message))
                       (toy_sign secret0 (ascii_bytes (u counter_message)));
                     Decrypt tt (PyStr (u counter_message))];
        entropy := entropy world0; cursor := cursor world0 |}).
Proof.
  apply (@validate_request_accepts unit toy_crypto toy_json2 secret0 tt
           (envelope_text counter_signature counter_message) world0
           (PyStr (u counter_signature)) (PyStr (u counter_message))
           (ascii_bytes (u counter_message))
           (toy_sign secret0 (ascii_bytes (u counter_message)))
           (ascii_bytes counter_text) counter_items (PyInt 7)).
  - split; [reflexivity |
            exists (envelope_items counter_signature counter_message);
            repeat split; vm_compute; reflexivity].
  - vm_compute. reflexivity.
  - vm_compute. reflexivity.
  - vm_compute. reflexivity.
  - vm_compute. reflexivity.
  - vm_compute. reflexivity.
  - reflexivity.
  - reflexivity.
Defined.

Lemma verifier_sees_the_message_as_received_witness :
  @nil (event unit) = [] /\ secret0 = secret0 /\
  exists s m,
    @envelope_parses toy_json
      (envelope_text lights_signature lights_message) s m /\
    str_encode m = Ok (ascii_bytes (u lights_message)) /\
    b64decode s = Ok (toy_sign secret0 (ascii_bytes (u lights_message))).
Proof.
  apply (@verifier_sees_the_message_as_received unit toy_crypto toy_json
           secret0 tt (envelope_text lights_signature lights_message) world0
           [] secret0 (ascii_bytes (u lights_message))
           (toy_sign secret0 (ascii_bytes (u lights_message)))
           [Decrypt tt (PyStr (u lights_message))]).
  vm_compute. reflexivity.
Defined.

Lemma unparseable_body_is_generic_failure_witness :
  run_validate (OfStr (u "not json"))
  = (Raise (Exn RequestValidationError "Cannot validate request"
              (Some (Exn JSONDecodeError "Expecting value" None))),
     {| trace := trace world0
                 ++ [LogException "Unexpected error validating request"];
        entropy := entropy world0; cursor := cursor world0 |}).
Proof.
  apply (@unparseable_body_is_generic_failure unit toy_crypto toy_json
           secret0 tt (OfStr (u "not json")) world0
           (Exn JSONDecodeError "Expecting value" None)).
  - reflexivity.
  - vm_compute. reflexivity.
Defined.

Lemma non_object_body_is_generic_failure_witness :
  exists cause,
    exn_class cause = AttributeError /\
    run_validate empty_array
    = (Raise (Exn RequestValidationError "Cannot validate request" (Some cause)),
       {| trace := trace world0
                   ++ [LogException "Unexpected error validating request"];
          entropy := entropy world0; cursor := cursor world0 |}).
Proof.
  apply (@non_object_body_is_generic_failure unit toy_crypto toy_json
           secret0 tt empty_array world0 (PyList [])).
  - reflexivity.
  - vm_compute. reflexivity.
  - discriminate.
Defined.

Lemma non_string_field_is_generic_failure_witness :
  exists cause,
    isinstance cause RequestValidationError = false /\
    run_validate2 numeric_text
    = (Raise (Exn RequestValidationError "Cannot validate request" (Some cause)),
       {| trace := trace world0
                   ++ [LogException "Unexpected error validating request"];
          entropy := entropy world0; cursor := cursor world0 |}).
Proof.
  apply (@non_string_field_is_generic_failure unit toy_crypto toy_json2
           secret0 tt numeric_text world0
           (PyStr (u "czNjcjN0bQ==")) (PyInt 42)).
  - split; [reflexivity |
            exists numeric_items; repeat split; vm_compute; reflexivity].
  - right. discriminate.
Defined.

Lemma logged_only_when_wrapping_witness :
  @nil (event unit) = [] /\
  "Unexpected error validating request" = "Unexpected error validating request"
  /\ (forall msg', ~ In (@LogException unit msg') []) /\
  exists cause,
    isinstance cause RequestValidationError = false /\
    fst (run_validate empty_array)
    = Raise (Exn RequestValidationError "Cannot validate request" (Some cause)).
Proof.
  apply (@logged_only_when_wrapping unit toy_crypto toy_json
           secret0 tt empty_array world0 []
           "Unexpected error validating request" []).
  vm_compute. reflexivity.
Defined.

Lemma request_is_signed_as_sent_witness :
  [@GenerateSignature unit secret0 sent_text] = [GenerateSignature secret0 sent_text]
  /\ @nil (event unit) = [] /\ default_url = default_url /\
  exists signature,
    toy_crypto.(crypto.generate_signature) secret0 sent_text = Ok signature /\
    [ (u "X-Webex-Assistant-Signature",
       bytes_hex (toy_sign secret0 (ascii_bytes sent_text)));
      (u "Content-Type", u "application/octet-stream");
      (u "Accept", u "application/json") ]
    = [ (u "X-Webex-Assistant-Signature", signature);
        (u "Content-Type", u "application/octet-stream");
        (u "Accept", u "application/json") ].
Proof.
  apply (@request_is_signed_as_sent unit toy_crypto toy_json
           (toy_requests echo_reply) secret0 (PyStr (u "hi")) default_url
           PyNone PyNone PyNone PyNone world0
           [GenerateSignature secret0 sent_text] default_url
           [ (u "X-Webex-Assistant-Signature",
              bytes_hex (toy_sign secret0 (ascii_bytes sent_text)));
             (u "Content-Type", u "application/octet-stream");
             (u "Accept", u "application/json") ]
           sent_text []).
  vm_compute. reflexivity.
Defined.

Lemma health_check_is_signed_as_sent_witness :
  [@GenerateSignature unit secret0 (drawn_challenge world0)]
  = [GenerateSignature secret0 (drawn_challenge world0)]
  /\ @nil (event unit) = [] /\ default_url = default_url /\
  [(u "payload", challenge0)] = [(u "payload", drawn_challenge world0)] /\
  exists signature,
    toy_crypto.(crypto.generate_signature) secret0 (drawn_challenge world0)
    = Ok signature /\
    [ (u "X-Webex-Assistant-Signature",
       bytes_hex (toy_sign secret0 (ascii_bytes challenge0)));
      (u "Accept", u "application/json") ]
    = [ (u "X-Webex-Assistant-Signature", signature);
        (u "Accept", u "application/json") ].
Proof.
  apply (@health_check_is_signed_as_sent unit toy_crypto
           (toy_requests echo_reply) secret0 default_url world0
           [GenerateSignature secret0 (drawn_challenge world0)] default_url
           [ (u "X-Webex-Assistant-Signature",
              bytes_hex (toy_sign secret0 (ascii_bytes challenge0)));
             (u "Accept", u "application/json") ]
           [(u "payload", challenge0)] []).
  vm_compute. reflexivity.
Defined.

Lemma non_200_is_response_failure_witness :
  fst (run_request2 down_reply)
  = Raise (Exn ResponseValidationError "Request failed" None)
  /\
  fst (run_health_check2 down_reply)
  = Raise (Exn ResponseValidationError "Health check failed" None).
Proof.
  assert (H : status_code down_reply <> 200%Z) by discriminate.
  split.
  - refine (proj1
      (@non_200_is_response_failure unit toy_crypto toy_json
         (fixed_requests down_reply) secret0 (PyStr (u "hi")) default_url
         PyNone PyNone PyNone PyNone world0 down_reply H) _).
    do 2 eexists. repeat split; vm_compute; reflexivity.
  - refine (proj2
      (@non_200_is_response_failure unit toy_crypto toy_json
         (fixed_requests down_reply) secret0 (PyStr (u "hi")) default_url
         PyNone PyNone PyNone PyNone world0 down_reply H) _).
    eexists. repeat split; vm_compute; reflexivity.
Defined.

Lemma non_object_response_is_attribute_error_witness :
  (exists e, exn_class e = AttributeError /\
     fst (run_request2 array_reply) = Raise e) /\
  (exists e, exn_class e = AttributeError /\
     fst (run_health_check2 array_reply) = Raise e).
Proof.
  assert (Hv : forall d, PyList [] <> PyDict d) by discriminate.
  split.
  - refine (proj1
      (@non_object_response_is_attribute_error unit toy_crypto toy_json
         (fixed_requests array_reply) secret0 (PyStr (u "hi")) default_url
         PyNone PyNone PyNone PyNone world0 array_reply (PyList [])
         eq_refl eq_refl Hv) _).
    do 2 eexists. repeat split; vm_compute; reflexivity.
  - refine (proj2
      (@non_object_response_is_attribute_error unit toy_crypto toy_json
         (fixed_requests array_reply) secret0 (PyStr (u "hi")) default_url
         PyNone PyNone PyNone PyNone world0 array_reply (PyList [])
         eq_refl eq_refl Hv) _).
    eexists. repeat split; vm_compute; reflexivity.
Defined.

(** C8, as stated, fails: a 200 response whose body is the JSON array
    [[]] has no [challenge] field, yet neither call raises
    [ClientChallengeValidationError]. *)
Lemma array_response_is_not_a_challenge_failure :
  status_code array_reply = 200%Z /\
  res_json array_reply = Ok (PyList []) /\
  (exists e,
     fst (run_request2 array_reply) = Raise e /\
     exn_class e = AttributeError /\
     isinstance e ClientChallengeValidationError = false) /\
  (exists e,
     fst (run_health_check2 array_reply) = Raise e /\
     exn_class e = AttributeError /\
     isinstance e ClientChallengeValidationError = false).
Proof.
  split; [reflexivity|]. split; [reflexivity|].
  split; eexists; (split; [vm_compute; reflexivity|]); split; reflexivity.
Qed.

Lemma outbound_challenge_is_hex_of_64_octets_witness :
  [(u "payload", challenge0)] = [(u "payload", drawn_challenge world0)] /\
  exists rest,
    trace (snd (run_request echo_reply (PyStr (u "hi")) PyNone))
    = trace world0 ++ GenerateSignature secret0 sent_text :: rest.
Proof.
  pose proof (@outbound_challenge_is_hex_of_64_octets unit toy_crypto toy_json
                (toy_requests echo_reply) secret0 (PyStr (u "hi")) default_url
                PyNone PyNone PyNone PyNone world0) as H.
  cbv zeta in H.
  destruct H as (_ & (_ & _ & Hget) & (_ & _ & _ & Hpost)).
  split.
  - apply (Hget [GenerateSignature secret0 (drawn_challenge world0)]
             default_url
             [ (u "X-Webex-Assistant-Signature",
                bytes_hex (toy_sign secret0 (ascii_bytes challenge0)));
               (u "Accept", u "application/json") ]
             [(u "payload", challenge0)] []).
    vm_compute. reflexivity.
  - apply (Hpost sent_text). vm_compute. reflexivity.
Defined.

Lemma outbound_errors_are_not_wrapped_witness :
  exists res,
    @post_replies unit toy_crypto toy_json (toy_requests stale_reply)
      secret0 (PyStr (u "hi")) default_url PyNone PyNone PyNone PyNone
      world0 res /\
    raised_on_response "Request failed" (drawn_challenge world0) res
      (Exn ClientChallengeValidationError "Response failed challenge" None).
Proof.
  pose proof (proj1 (@outbound_errors_are_not_wrapped unit toy_crypto toy_json
                       (toy_requests stale_reply) secret0 (PyStr (u "hi"))
                       default_url PyNone PyNone PyNone PyNone world0
                       (Exn ClientChallengeValidationError
                          "Response failed challenge" None))) as H.
  cbv zeta in H.
  assert (P : fst (run_request stale_reply (PyStr (u "hi")) PyNone)
              = Raise (Exn ClientChallengeValidationError
                         "Response failed challenge" None))
    by (vm_compute; reflexivity).
  destruct (H P) as [F | [(enc & _ & F) | [(enc & sg & _ & _ & F) | F]]];
    clear H P.
  - vm_compute in F. discriminate F.
  - vm_compute in F. discriminate F.
  - vm_compute in F. discriminate F.
  - exact F.
Defined.

Lemma different_draws_give_different_challenges_witness :
  drawn_challenge world0 <> drawn_challenge world1.
Proof.
  apply (different_draws_give_different_challenges unit world0 world1).
  vm_compute. discriminate.
Defined.

Lemma request_dict_keys_witness :
  In (u "context")
    (map fst (request_dict challenge0 (PyStr (u "hi")) PyNone PyNone PyNone
                PyNone))
  /\ In (u "context") request_keys.
Proof.
  assert (H : In (u "context")
    (map fst (request_dict challenge0 (PyStr (u "hi")) PyNone PyNone PyNone
                PyNone))).
  { vm_compute. tauto. }
  split; [exact H|].
  exact (proj1 (request_dict_keys challenge0 (PyStr (u "hi")) PyNone PyNone
                  PyNone PyNone) (u "context") H).
Defined.

End MoreRuns.
